(** * MONITORING.py: the /tiles and /timeseries request handlers

    A shallow embedding of the Flask backend of the monitoring platform.
    The module keeps three flags about the Earth Engine client
    ([EE_AVAILABLE], [EE_INITIALIZED], [EE_INIT_ERROR]), sets them while it
    is imported, and serves two POST routes that read them, read the JSON
    body of the request, build a server-side Earth Engine expression and
    ask the service for a map id ([/tiles]) or for two aggregated arrays
    ([/timeseries]).

    The Earth Engine client is an external library.  Its calls are kept
    as they appear in the source: every method call builds one node of an
    expression tree ([ee.expr]), any of these calls may raise, and only
    [getMapId] and [getInfo] hand the finished expression to the service.
    The handlers are parametric in the service ([EarthEngine]) and in the
    two Python string built-ins whose full Unicode behaviour is not
    spelled out here ([PyStr]). *)

From Stdlib Require Import ZArith List String Ascii Bool Lia.
From Stdlib Require Import Floats.SpecFloat.
From Stdlib Require Import Sorting.Sorted.
Import ListNotations.
Local Open Scope string_scope.
Local Open Scope Z_scope.
Set Warnings "-register-all".

(** ** JSON values, as [request.get_json()] returns them *)

Inductive json : Type :=
| JNull
| JBool (b : bool)
| JInt (n : Z)
| JFloat (f : spec_float)
| JStr (s : string)
| JArr (items : list json)
| JObj (members : list (string * json)).

(** Python truth value of a decoded JSON value: [None], [False], zero,
    the empty string, the empty list and the empty dict are false. *)
Definition truthy (v : json) : bool :=
  match v with
  | JNull => false
  | JBool b => b
  | JInt n => negb (Z.eqb n 0)
  | JFloat (S754_zero _) => false
  | JFloat _ => true
  | JStr s => negb (String.eqb s "")
  | JArr [] => false
  | JArr (_ :: _) => true
  | JObj [] => false
  | JObj (_ :: _) => true
  end.

(** [a or b] *)
Definition py_or (a b : json) : json := if truthy a then a else b.

(** The name of the Python type of a decoded value, for error messages. *)
Definition type_name (v : json) : string :=
  match v with
  | JNull => "NoneType"
  | JBool _ => "bool"
  | JInt _ => "int"
  | JFloat _ => "float"
  | JStr _ => "str"
  | JArr _ => "list"
  | JObj _ => "dict"
  end.

(** ** Exceptions and results *)

(** An instance of a subclass of [Exception]: its class and [str(e)]. *)
Record exn : Type := Exception { exn_class : string; exn_str : string }.

Inductive result (A : Type) : Type :=
| Ok (a : A)
| Raise (e : exn).
Arguments Ok {A} a.
Arguments Raise {A} e.

Definition AttributeError (v : json) (attr : string) : exn :=
  Exception "AttributeError"
    ("'" ++ type_name v ++ "' object has no attribute '" ++ attr ++ "'").

(** [d.get(key, default)]: defined on dicts only; the first binding of
    the key is the dict's entry. *)
Fixpoint lookup (key : string) (members : list (string * json)) : option json :=
  match members with
  | [] => None
  | (k, v) :: rest => if String.eqb k key then Some v else lookup key rest
  end.

Definition field (key : string) (members : list (string * json)) (default : json)
  : json :=
  match lookup key members with
  | Some v => v
  | None => default
  end.

Definition dict_get (d : json) (key : string) (default : json) : result json :=
  match d with
  | JObj members => Ok (field key members default)
  | _ => Raise (AttributeError d "get")
  end.

(** ** Python built-ins on strings *)

(** [str.upper] and the parsing of a string by [int]. *)
Class PyStr : Type := {
  str_upper : string -> string;
  int_of_str : string -> option Z
}.

(** Truncation of a float towards zero, as [int] does it. *)
Definition float_trunc (f : spec_float) : result Z :=
  match f with
  | S754_zero _ => Ok 0
  | S754_infinity _ =>
      Raise (Exception "OverflowError" "cannot convert float infinity to integer")
  | S754_nan =>
      Raise (Exception "ValueError" "cannot convert float NaN to integer")
  | S754_finite s m e =>
      let a := if 0 <=? e then Z.pos m * 2 ^ e else Z.pos m / 2 ^ (- e) in
      Ok (if s then - a else a)
  end.

Section Builtins.
Context {py : PyStr}.

(** [int(v)] *)
Definition py_int (v : json) : result Z :=
  match v with
  | JInt n => Ok n
  | JBool b => Ok (if b then 1 else 0)
  | JFloat f => float_trunc f
  | JStr s =>
      match int_of_str s with
      | Some n => Ok n
      | None =>
          Raise (Exception "ValueError"
                   ("invalid literal for int() with base 10: '" ++ s ++ "'"))
      end
  | JNull | JArr _ | JObj _ =>
      Raise (Exception "TypeError"
               ("int() argument must be a string, a bytes-like object or a real number, not '"
                  ++ type_name v ++ "'"))
  end.

(** [v.upper()] *)
Definition py_upper (v : json) : result string :=
  match v with
  | JStr s => Ok (str_upper s)
  | _ => Raise (AttributeError v "upper")
  end.

End Builtins.

(** [iter(v)], as [zip] needs it: the items of a list, the keys of a
    dict, the characters of a string. *)
Fixpoint chars (s : string) : list json :=
  match s with
  | EmptyString => []
  | String c rest => JStr (String c EmptyString) :: chars rest
  end.

Definition py_iter (v : json) : result (list json) :=
  match v with
  | JArr items => Ok items
  | JObj members => Ok (List.map (fun kv => JStr (fst kv)) members)
  | JStr s => Ok (chars s)
  | _ => Raise (Exception "TypeError" ("'" ++ type_name v ++ "' object is not iterable"))
  end.

(** ** Earth Engine expressions *)

Module ee.

(** One constructor per client call of the source.  [arg] is the image a
    mapped function receives. *)
Inductive expr : Type :=
| Geometry (geo_json : json)
| buffer (g : expr) (distance : Z)
| bounds (g : expr)
| ImageCollection (id : string)
| filterDate (c : expr) (start end_ : json)
| filterBounds (c g : expr)
| filterMetadata (c : expr) (name operator : string) (value : Z)
| select (c : expr) (bands : list string)
| median (c : expr)
| normalizedDifference (img : expr) (bands : list string)
| clip (img g : expr)
| visualize (img : expr) (params : list (string * json))
| arg
| rename (img : expr) (name : string)
| Reducer_mean
| reduceRegion (img reducer geometry : expr) (scale : Z)
| get (obj : expr) (key : string)
| Date (v : expr)
| format (d : expr) (pattern : string)
| set (obj : expr) (key : string) (v : expr)
| map (c : expr) (body : expr)
| sort (c : expr) (prop : string)
| limit (c : expr) (n : Z)
| aggregate_array (c : expr) (prop : string).

End ee.

(** What [getMapId] returns, as far as the handler looks into it:
    [mapid['tile_fetcher'].url_format], absent when the lookup fails. *)
Record mapid : Type := { tile_fetcher : option string }.

(** The service behind the client library. *)
Record EarthEngine : Type := {
  ee_build : ee.expr -> option exn;      (* the call building this node raises *)
  ee_getMapId : ee.expr -> result mapid;
  ee_getInfo : ee.expr -> result json
}.

(** ** Module state, requests, responses *)

Record globals : Type := {
  EE_AVAILABLE : bool;
  EE_INITIALIZED : bool;
  EE_INIT_ERROR : option string
}.

Inductive event : Type :=
| EvGetJson
| EvBuild (e : ee.expr)
| EvGetMapId (e : ee.expr)
| EvGetInfo (e : ee.expr).

(** The module globals and the calls made so far, oldest first. *)
Record store : Type := { flags : globals; calls : list event }.

Record request : Type := { get_json : result json }.

Record response : Type := { status_code : Z; body : json }.

(** ** The monad of handler code: state and exceptions *)

Definition M (A : Type) : Type := store -> result A * store.

Definition ret {A} (a : A) : M A := fun s => (Ok a, s).

Definition bind {A B} (m : M A) (f : A -> M B) : M B :=
  fun s => match m s with
           | (Ok a, s') => f a s'
           | (Raise e, s') => (Raise e, s')
           end.

Definition raise {A} (e : exn) : M A := fun s => (Raise e, s).

Definition lift {A} (r : result A) : M A := fun s => (r, s).

(** [try: m except Exception as e: h e]; what [m] did to the state stays. *)
Definition try_except {A} (m : M A) (h : exn -> M A) : M A :=
  fun s => match m s with
           | (Ok a, s') => (Ok a, s')
           | (Raise e, s') => h e s'
           end.

Definition read_flags : M globals := fun s => (Ok (flags s), s).

Definition write_flags (f : globals -> globals) : M unit :=
  fun s => (Ok tt, {| flags := f (flags s); calls := calls s |}).

Definition emit (ev : event) : M unit :=
  fun s => (Ok tt, {| flags := flags s; calls := calls s ++ [ev] |}).

Declare Scope py_scope.
Delimit Scope py_scope with py.
Notation "x <- m ;; k" := (bind m (fun x => k))
  (at level 100, m at next level, right associativity) : py_scope.
Notation "m ;;; k" := (bind m (fun _ => k))
  (at level 100, right associativity) : py_scope.
Local Open Scope py_scope.

(** ** Responses *)

Definition jsonify (members : list (string * json)) (code : Z) : response :=
  {| status_code := code; body := JObj members |}.

Definition error_response (msg : string) (code : Z) : response :=
  jsonify [("status", JStr "error"); ("error", JStr msg)] code.

(** [f'{EE_INIT_ERROR}'] *)
Definition format_opt (o : option string) : string :=
  match o with Some s => s | None => "None" end.

Section Handlers.
Context {py : PyStr}.
Variable svc : EarthEngine.
Variable environ : string -> option string.

(** A client call that builds the node [e]. *)
Definition build (e : ee.expr) : M ee.expr :=
  emit (EvBuild e) ;;;
  match ee_build svc e with
  | Some x => raise x
  | None => ret e
  end.

Definition getMapId (e : ee.expr) : M mapid :=
  emit (EvGetMapId e) ;;; lift (ee_getMapId svc e).

Definition getInfo (e : ee.expr) : M json :=
  emit (EvGetInfo e) ;;; lift (ee_getInfo svc e).

Definition request_get_json (req : request) : M json :=
  emit EvGetJson ;;; lift (get_json req).

(** [os.environ.get('EE_S2_COLLECTION', 'COPERNICUS/S2_SR_HARMONIZED')] *)
Definition coll_id : string :=
  match environ "EE_S2_COLLECTION" with
  | Some s => s
  | None => "COPERNICUS/S2_SR_HARMONIZED"
  end.

Definition url_format (m : mapid) : result string :=
  match tile_fetcher m with
  | Some u => Ok u
  | None => Raise (Exception "KeyError" "'tile_fetcher'")
  end.

Definition viz_ndvi : list (string * json) :=
  [("min", JInt 0); ("max", JInt 1);
   ("palette", JArr [JStr "white"; JStr "green"])].

Definition viz_rgb : list (string * json) :=
  [("min", JInt 0); ("max", JInt 3000)].

(** The [try] block of [tiles], lines 114-146. *)
Definition tiles_try (geom layer start end_ : json)
  (cloud_threshold buffer_meters : Z) : M response :=
  try_except
    (geometry <- build (ee.Geometry geom) ;;
     buffered <- build (ee.buffer geometry buffer_meters) ;;
     clip_geometry <- build (ee.bounds buffered) ;;
     coll <- build (ee.ImageCollection coll_id) ;;
     coll <- (if truthy start && truthy end_
              then build (ee.filterDate coll start end_)
              else ret coll) ;;
     coll <- build (ee.filterBounds coll geometry) ;;
     coll <- build (ee.filterMetadata coll "CLOUDY_PIXEL_PERCENTAGE"
                      "less_than" cloud_threshold) ;;
     up <- lift (py_upper layer) ;;
     img_viz <- (if String.eqb up "NDVI" then
                   sel <- build (ee.select coll ["B8"; "B4"]) ;;
                   med <- build (ee.median sel) ;;
                   img <- build (ee.normalizedDifference med ["B8"; "B4"]) ;;
                   clipped <- build (ee.clip img clip_geometry) ;;
                   build (ee.visualize clipped viz_ndvi)
                 else
                   sel <- build (ee.select coll ["B4"; "B3"; "B2"]) ;;
                   img <- build (ee.median sel) ;;
                   clipped <- build (ee.clip img clip_geometry) ;;
                   build (ee.visualize clipped viz_rgb)) ;;
     r <- try_except
            (mid <- getMapId img_viz ;;
             tile_url <- lift (url_format mid) ;;
             ret (inr tile_url))
            (fun _ => ret (inl (error_response
                                  "Could not generate tile URL from EE" 500))) ;;
     match r with
     | inl resp => ret resp
     | inr tile_url =>
         ret (jsonify [("status", JStr "ok"); ("tile_url", JStr tile_url)] 200)
     end)
    (fun e => ret (error_response (exn_str e) 500)).

(** [tiles()], lines 93-146. *)
Definition tiles (req : request) : M response :=
  g <- read_flags ;;
  if negb (EE_AVAILABLE g) || negb (EE_INITIALIZED g) then
    ret (error_response ("EE not initialized: " ++ format_opt (EE_INIT_ERROR g)) 500)
  else
    j <- request_get_json req ;;
    let data := py_or j (JObj []) in
    geom <- lift (dict_get data "geometry" JNull) ;;
    layer <- lift (dict_get data "layer" (JStr "RGB")) ;;
    start <- lift (dict_get data "start" JNull) ;;
    end_ <- lift (dict_get data "end" JNull) ;;
    ct <- lift (dict_get data "cloud_threshold" (JInt 20)) ;;
    cloud_threshold <- lift (py_int ct) ;;
    bf <- lift (dict_get data "buffer" (JInt 500)) ;;
    buffer_meters <- lift (py_int bf) ;;
    if negb (truthy geom) then
      ret (error_response "No geometry provided" 400)
    else
      tiles_try geom layer start end_ cloud_threshold buffer_meters.

(** [add_ndvi_stats(img)], lines 607-611: the function given to
    [coll.map]; the client calls it once, on the placeholder image. *)
Definition add_ndvi_stats (geometry : ee.expr) (scale : Z) (img : ee.expr)
  : M ee.expr :=
  nd0 <- build (ee.normalizedDifference img ["B8"; "B4"]) ;;
  nd <- build (ee.rename nd0 "NDVI") ;;
  reducer <- build ee.Reducer_mean ;;
  reduced <- build (ee.reduceRegion nd reducer geometry scale) ;;
  mean_ndvi <- build (ee.get reduced "NDVI") ;;
  t <- build (ee.get img "system:time_start") ;;
  d <- build (ee.Date t) ;;
  date <- build (ee.format d "YYYY-MM-dd") ;;
  with_mean <- build (ee.set img "mean_ndvi" mean_ndvi) ;;
  build (ee.set with_mean "date" date).

(** [{'date': d, 'value': v} for d, v in zip(dates, values)] *)
Definition zip_series (dates values : list json) : list json :=
  List.map (fun dv => JObj [("date", fst dv); ("value", snd dv)])
           (List.combine dates values).

(** The [try] block of [timeseries], lines 594-624. *)
Definition timeseries_try (geom start end_ : json) (scale cloud_threshold : Z)
  : M response :=
  try_except
    (geometry <- build (ee.Geometry geom) ;;
     coll <- build (ee.ImageCollection coll_id) ;;
     coll <- (if truthy start && truthy end_
              then build (ee.filterDate coll start end_)
              else ret coll) ;;
     coll <- build (ee.filterBounds coll geometry) ;;
     coll <- build (ee.filterMetadata coll "CLOUDY_PIXEL_PERCENTAGE"
                      "less_than" cloud_threshold) ;;
     fn <- add_ndvi_stats geometry scale ee.arg ;;
     mapped <- build (ee.map coll fn) ;;
     sorted <- build (ee.sort mapped "system:time_start") ;;
     stats_coll <- build (ee.limit sorted 256) ;;
     date_array <- build (ee.aggregate_array stats_coll "date") ;;
     dates <- getInfo date_array ;;
     value_array <- build (ee.aggregate_array stats_coll "mean_ndvi") ;;
     values <- getInfo value_array ;;
     ds <- lift (py_iter dates) ;;
     vs <- lift (py_iter values) ;;
     ret (jsonify [("status", JStr "ok");
                   ("series", JArr (zip_series ds vs))] 200))
    (fun e => ret (error_response (exn_str e) 500)).

(** [timeseries()], lines 574-624. *)
Definition timeseries (req : request) : M response :=
  g <- read_flags ;;
  if negb (EE_AVAILABLE g) || negb (EE_INITIALIZED g) then
    ret (error_response ("EE not initialized: " ++ format_opt (EE_INIT_ERROR g)) 500)
  else
    j <- request_get_json req ;;
    let data := py_or j (JObj []) in
    geom <- lift (dict_get data "geometry" JNull) ;;
    start <- lift (dict_get data "start" JNull) ;;
    end_ <- lift (dict_get data "end" JNull) ;;
    sc <- lift (dict_get data "scale" (JInt 10)) ;;
    scale <- lift (py_int sc) ;;
    ct <- lift (dict_get data "cloud_threshold" (JInt 20)) ;;
    cloud_threshold <- lift (py_int ct) ;;
    if negb (truthy geom) then
      ret (error_response "No geometry provided" 400)
    else
      timeseries_try geom start end_ scale cloud_threshold.

End Handlers.

(** ** Import time: lines 26-77 *)

(** What the import of the module meets: whether [import ee] and the two
    ways of initialising succeed, the environment, and the temporary file
    that receives an inline key. *)
Record startup : Type := {
  import_ee : option exn;
  Initialize_default : option exn;
  getenv : string -> option string;
  write_key_file : string -> result string;
  Initialize_service_account : string -> string -> option exn
}.

(** Truth value of what [os.environ.get] returns. *)
Definition env_truthy (o : option string) : bool :=
  match o with
  | Some s => negb (String.eqb s "")
  | None => false
  end.

Definition set_EE_AVAILABLE (b : bool) (g : globals) : globals :=
  {| EE_AVAILABLE := b; EE_INITIALIZED := EE_INITIALIZED g;
     EE_INIT_ERROR := EE_INIT_ERROR g |}.

Definition set_EE_INITIALIZED (b : bool) (g : globals) : globals :=
  {| EE_AVAILABLE := EE_AVAILABLE g; EE_INITIALIZED := b;
     EE_INIT_ERROR := EE_INIT_ERROR g |}.

Definition set_EE_INIT_ERROR (e : option string) (g : globals) : globals :=
  {| EE_AVAILABLE := EE_AVAILABLE g; EE_INITIALIZED := EE_INITIALIZED g;
     EE_INIT_ERROR := e |}.

Definition raise_if {A} (o : option exn) (k : M A) : M A :=
  match o with
  | Some e => raise e
  | None => k
  end.

(** [init_ee_from_env()], lines 34-70.  The name [default_err] is unbound
    once its [except] clause is left, so the last two lines of the
    function raise [UnboundLocalError]. *)
Definition init_ee_from_env (w : startup) : M (bool * string) :=
  match Initialize_default w with
  | None =>
      write_flags (set_EE_INITIALIZED true) ;;;
      ret (true, "initialized with default credentials")
  | Some _ =>
      let service_account := getenv w "EE_SERVICE_ACCOUNT" in
      let key_path := getenv w "EE_CREDENTIALS_FILE" in
      let key_json := getenv w "EE_PRIVATE_KEY_JSON" in
      if env_truthy service_account then
        try_except
          (key_path <- (if env_truthy key_json && negb (env_truthy key_path)
                        then name <- lift (write_key_file w (format_opt key_json)) ;;
                             ret (Some name)
                        else ret key_path) ;;
           if negb (env_truthy key_path) then
             ret (false, "EE_SERVICE_ACCOUNT set but no credentials file provided")
           else
             raise_if (Initialize_service_account w (format_opt service_account)
                         (format_opt key_path))
               (write_flags (set_EE_INITIALIZED true) ;;;
                ret (true, "initialized with service account "
                             ++ format_opt service_account)))
          (fun e =>
             write_flags (set_EE_INIT_ERROR (Some (exn_str e))) ;;;
             ret (false, "service-account init failed: " ++ exn_str e))
      else
        raise (Exception "UnboundLocalError"
                 "local variable 'default_err' referenced before assignment")
  end.

(** The module body around it, lines 26-77. *)
Definition module_init (w : startup) : M unit :=
  write_flags (fun _ => {| EE_AVAILABLE := false; EE_INITIALIZED := false;
                           EE_INIT_ERROR := None |}) ;;;
  try_except
    (raise_if (import_ee w)
       (write_flags (set_EE_AVAILABLE true) ;;;
        r <- init_ee_from_env w ;;
        write_flags (set_EE_INITIALIZED (fst r)) ;;;
        if negb (fst r) then write_flags (set_EE_INIT_ERROR (Some (snd r)))
        else ret tt))
    (fun _ => write_flags (set_EE_AVAILABLE false)).

(** ** The running application *)

Inductive route : Type := POST_tiles | POST_timeseries.

Section App.
Context {py : PyStr}.
Variable svc : EarthEngine.
Variable environ : string -> option string.

Definition handle (r : route) (req : request) : M response :=
  match r with
  | POST_tiles => tiles svc environ req
  | POST_timeseries => timeseries svc environ req
  end.

(** Requests served one after the other on the same module state; an
    exception that leaves a handler ends that request only. *)
Fixpoint serve (reqs : list (route * request)) (s : store)
  : list (result response) * store :=
  match reqs with
  | [] => ([], s)
  | (r, req) :: rest =>
      let (out, s') := handle r req s in
      let (outs, s'') := serve rest s' in
      (out :: outs, s'')
  end.

End App.

(** The state a fresh process starts from, before the module body runs. *)
Definition fresh : store :=
  {| flags := {| EE_AVAILABLE := false; EE_INITIALIZED := false;
                 EE_INIT_ERROR := None |};
     calls := [] |}.

(** The flags once the module is imported. *)
Definition flags_after_import (w : startup) : globals :=
  flags (snd (module_init w fresh)).

(** ** The string built-ins on ASCII text *)

Module Ascii7.

Definition upper_char (c : ascii) : ascii :=
  let n := nat_of_ascii c in
  if (97 <=? n)%nat && (n <=? 122)%nat then ascii_of_nat (n - 32) else c.

Fixpoint upper (s : string) : string :=
  match s with
  | EmptyString => EmptyString
  | String c rest => String (upper_char c) (upper rest)
  end.

(** The characters [int] strips from both ends of an ASCII string:
    space, tab, line feed, vertical tab, form feed, carriage return. *)
Definition is_space (c : ascii) : bool :=
  let n := nat_of_ascii c in
  (n =? 32)%nat || ((9 <=? n)%nat && (n <=? 13)%nat).

Definition digit_value (c : ascii) : option Z :=
  let n := nat_of_ascii c in
  if (48 <=? n)%nat && (n <=? 57)%nat then Some (Z.of_nat (n - 48)) else None.

Fixpoint lstrip (s : string) : string :=
  match s with
  | String c rest => if is_space c then lstrip rest else s
  | EmptyString => EmptyString
  end.

Fixpoint rstrip (s : string) : string :=
  match s with
  | EmptyString => EmptyString
  | String c rest =>
      match rstrip rest with
      | EmptyString => if is_space c then EmptyString else String c EmptyString
      | kept => String c kept
      end
  end.

(** Decimal digits, single underscores allowed between two digits. *)
Fixpoint digits (s : string) (acc : Z) (after_digit : bool) : option Z :=
  match s with
  | EmptyString => if after_digit then Some acc else None
  | String c rest =>
      match digit_value c with
      | Some d => digits rest (10 * acc + d) true
      | None =>
          if Ascii.eqb c "_" && after_digit then digits rest acc false else None
      end
  end.

Definition parse_int (s : string) : option Z :=
  match rstrip (lstrip s) with
  | String "-" rest => option_map Z.opp (digits rest 0 false)
  | String "+" rest => digits rest 0 false
  | body => digits body 0 false
  end.

End Ascii7.

(** [str.upper] and [int] restricted to ASCII input; the closed examples
    below run the handlers with it. *)
Definition ascii_py : PyStr :=
  {| str_upper := Ascii7.upper; int_of_str := Ascii7.parse_int |}.

(** ** A simulated Earth Engine

    A stand-in for the remote service that the closed examples run the
    handlers against.  Its catalogue lists the images over the requested
    region.  It follows the service on the operators [timeseries] uses:
    [sort] orders by [system:time_start], [limit n] keeps the first [n]
    elements, the mapped function sets [date] from the time stamp and
    [mean_ndvi] from the region mean, and [aggregate_array] lists the
    values of a property over the collection, leaving out the elements
    where the property is null. *)

Module Sim.

Record image : Type := {
  time_start : Z;                 (* system:time_start, ms since the epoch *)
  cloudy_pixel_percentage : Z;
  region_mean_ndvi : option json  (* None: no unmasked pixel in the region *)
}.

(** Days since 1970-01-01 to (year, month, day). *)
Definition civil_from_days (days : Z) : Z * Z * Z :=
  let z := days + 719468 in
  let era := z / 146097 in
  let doe := z - era * 146097 in
  let yoe := (doe - doe / 1460 + doe / 36524 - doe / 146096) / 365 in
  let doy := doe - (365 * yoe + yoe / 4 - yoe / 100) in
  let mp := (5 * doy + 2) / 153 in
  let d := doy - (153 * mp + 2) / 5 + 1 in
  let m := if mp <? 10 then mp + 3 else mp - 9 in
  let y := yoe + era * 400 in
  (if m <=? 2 then y + 1 else y, m, d).

Definition digit (n : Z) : ascii := ascii_of_nat (48 + Z.to_nat (n mod 10)).

Definition pad2 (n : Z) : string :=
  String (digit (n / 10)) (String (digit n) EmptyString).

Definition pad4 (n : Z) : string :=
  String (digit (n / 1000)) (String (digit (n / 100)) (pad2 n)).

(** [ee.Date(t).format('YYYY-MM-dd')] *)
Definition date_of (t : Z) : string :=
  let '(y, m, d) := civil_from_days (t / 86400000) in
  pad4 y ++ "-" ++ pad2 m ++ "-" ++ pad2 d.

(** Stable insertion sort on the time stamp. *)
Fixpoint insert (x : image) (l : list image) : list image :=
  match l with
  | [] => [x]
  | y :: rest =>
      if time_start x <? time_start y then x :: l else y :: insert x rest
  end.

Fixpoint sort (l : list image) : list image :=
  match l with
  | [] => []
  | x :: rest => insert x (sort rest)
  end.

Definition unsupported {A} : result A :=
  Raise (Exception "EEException" "not supported by the simulation").

Definition in_dates (a b : json) (i : image) : result bool :=
  match a, b with
  | JStr lo, JStr hi =>
      Ok (String.leb lo (date_of (time_start i))
          && String.ltb (date_of (time_start i)) hi)
  | JInt lo, JInt hi => Ok ((lo <=? time_start i) && (time_start i <? hi))
  | _, _ => Raise (Exception "EEException" "Invalid date")
  end.

Fixpoint filter_dates (a b : json) (l : list image) : result (list image) :=
  match l with
  | [] => Ok []
  | i :: rest =>
      match in_dates a b i, filter_dates a b rest with
      | Ok keep, Ok kept => Ok (if keep then i :: kept else kept)
      | Raise e, _ => Raise e
      | _, Raise e => Raise e
      end
  end.

(** The images of a collection expression. *)
Fixpoint collection (catalogue : list image) (e : ee.expr) : result (list image) :=
  match e with
  | ee.ImageCollection _ => Ok catalogue
  | ee.filterDate c a b =>
      match collection catalogue c with
      | Ok l => filter_dates a b l
      | Raise x => Raise x
      end
  | ee.filterBounds c _ => collection catalogue c
  | ee.filterMetadata c _ _ v =>
      match collection catalogue c with
      | Ok l => Ok (List.filter (fun i => cloudy_pixel_percentage i <? v) l)
      | Raise x => Raise x
      end
  | ee.map c _ => collection catalogue c
  | ee.sort c _ =>
      match collection catalogue c with
      | Ok l => Ok (sort l)
      | Raise x => Raise x
      end
  | ee.limit c n =>
      match collection catalogue c with
      | Ok l => Ok (List.firstn (Z.to_nat n) l)
      | Raise x => Raise x
      end
  | _ => unsupported
  end.

(** The non-null values of [mean_ndvi]. *)
Fixpoint present (l : list image) : list json :=
  match l with
  | [] => []
  | i :: rest =>
      match region_mean_ndvi i with
      | Some v => v :: present rest
      | None => present rest
      end
  end.

Definition dates (l : list image) : list json :=
  List.map (fun i => JStr (date_of (time_start i))) l.

Definition getInfo (catalogue : list image) (e : ee.expr) : result json :=
  match e with
  | ee.aggregate_array c prop =>
      match collection catalogue c with
      | Ok l =>
          if String.eqb prop "date" then Ok (JArr (dates l))
          else if String.eqb prop "mean_ndvi" then Ok (JArr (present l))
          else unsupported
      | Raise x => Raise x
      end
  | _ => unsupported
  end.

Definition tile_url : string :=
  "https://earthengine.googleapis.com/v1/projects/p/maps/m/tiles/{z}/{x}/{y}".

Definition service (catalogue : list image) : EarthEngine :=
  {| ee_build := fun _ => None;
     ee_getMapId := fun _ => Ok {| tile_fetcher := Some tile_url |};
     ee_getInfo := getInfo catalogue |}.


End Sim.

(** Flags of a process whose import initialised Earth Engine. *)
Definition initialised : globals :=
  {| EE_AVAILABLE := true; EE_INITIALIZED := true; EE_INIT_ERROR := None |}.

(** One request against the module flags [g], from an empty call log. *)
Definition run {A} (m : M A) (g : globals) : result A * store :=
  m {| flags := g; calls := [] |}.

Definition no_env : string -> option string := fun _ => None.

(** A service on which every call succeeds; running a handler against it
    lists all the calls the handler can make for a request. *)
Definition quiet : EarthEngine :=
  {| ee_build := fun _ => None;
     ee_getMapId := fun _ => Ok {| tile_fetcher := Some "" |};
     ee_getInfo := fun _ => Ok (JArr []) |}.

Definition post (j : json) : request := {| get_json := Ok j |}.

(** ** Vocabulary of the statements *)


(** The error envelope [{status: 'error', error: msg}]. *)
Definition is_error (r : response) : Prop :=
  exists msg, body r = JObj [("status", JStr "error"); ("error", JStr msg)].




(** The mapped function sets [date] from the image's time stamp. *)
Definition sets_date_from_time_start (fn : ee.expr) : Prop :=
  exists img,
    fn = ee.set img "date"
           (ee.format (ee.Date (ee.get ee.arg "system:time_start")) "YYYY-MM-dd").

(** What the handlers rely on the service for.  [limit n] leaves at most
    [n] elements to aggregate. *)
Definition honours_limit (svc : EarthEngine) : Prop :=
  forall c n prop v,
    ee_getInfo svc (ee.aggregate_array (ee.limit c n) prop) = Ok v ->
    exists l, v = JArr l /\ (List.length l <= Z.to_nat n)%nat.


(** The number of requests sent to the service in a log. *)
Definition service_requests (l : list event) : nat :=
  List.length
    (List.filter (fun ev => match ev with
                            | EvGetMapId _ | EvGetInfo _ => true
                            | _ => false
                            end) l).

(** *** /tiles *)









(** *** Requests without a date range *)



(** *** /timeseries *)

(** What an ok answer of [timeseries] is made of: the two arrays the
    service returned for the sorted, limited collection, zipped. *)
Definition series_of (svc : EarthEngine) (resp : response) : Prop :=
  exists c fn dates values ds vs,
    let stats_coll := ee.limit (ee.sort (ee.map c fn) "system:time_start") 256 in
    sets_date_from_time_start fn
    /\ ee_getInfo svc (ee.aggregate_array stats_coll "date") = Ok dates
    /\ ee_getInfo svc (ee.aggregate_array stats_coll "mean_ndvi") = Ok values
    /\ py_iter dates = Ok ds
    /\ py_iter values = Ok vs
    /\ resp = jsonify [("status", JStr "ok");
                       ("series", JArr (zip_series ds vs))] 200.

Definition sorted_and_limited (ev : event) : Prop :=
  forall e, ev = EvGetInfo e ->
    exists c prop,
      e = ee.aggregate_array (ee.limit (ee.sort c "system:time_start") 256) prop.


(** ** Worked requests *)

Definition point : json :=
  JObj [("type", JStr "Point"); ("coordinates", JArr [JInt 0; JInt 0])].

(** The float 0.5 *)
Definition half : json := JFloat (S754_finite false 1 (-1)).

(** Two images over the region, 2024-01-01 and 2024-01-06; the earlier
    one has no unmasked pixel in it. *)
Definition masked_then_clear : list Sim.image :=
  [ {| Sim.time_start := 1704067200000; Sim.cloudy_pixel_percentage := 3;
       Sim.region_mean_ndvi := None |};
    {| Sim.time_start := 1704499200000; Sim.cloudy_pixel_percentage := 7;
       Sim.region_mean_ndvi := Some half |} ].

(** Three clear images, listed out of order, and a cloudy one. *)
Definition clear_scenes : list Sim.image :=
  [ {| Sim.time_start := 1704931200000; Sim.cloudy_pixel_percentage := 1;
       Sim.region_mean_ndvi := Some (JInt 1) |};
    {| Sim.time_start := 1704067200000; Sim.cloudy_pixel_percentage := 3;
       Sim.region_mean_ndvi := Some half |};
    {| Sim.time_start := 1705363200000; Sim.cloudy_pixel_percentage := 60;
       Sim.region_mean_ndvi := Some half |};
    {| Sim.time_start := 1704499200000; Sim.cloudy_pixel_percentage := 7;
       Sim.region_mean_ndvi := Some (JInt 0) |} ].

Definition clear_series : list json :=
  [ JObj [("date", JStr "2024-01-01"); ("value", half)];
    JObj [("date", JStr "2024-01-06"); ("value", JInt 0)];
    JObj [("date", JStr "2024-01-11"); ("value", JInt 1)] ].

Definition ok_series (series : list json) : response :=
  jsonify [("status", JStr "ok"); ("series", JArr series)] 200.

(** [{geometry, start, end}] *)
Definition january : json :=
  JObj [("geometry", point); ("start", JStr "2024-01-01");
        ("end", JStr "2024-02-01")].

(** [{geometry, buffer: 250}]: no dates, no layer, no cloud threshold. *)
Definition no_dates : list (string * json) :=
  [("geometry", point); ("buffer", JInt 250)].


(** [{layer: 'NDVI', buffer: '250'}] *)
Definition no_geometry : list (string * json) :=
  [("layer", JStr "NDVI"); ("buffer", JStr "250")].

(** [{geometry, cloud_threshold: 'abc'}] *)
Definition bad_threshold : json :=
  JObj [("geometry", point); ("cloud_threshold", JStr "abc")].

(** [{geometry, layer: 5}] *)
Definition numeric_layer : json :=
  JObj [("geometry", point); ("layer", JInt 5)].




Definition timeseries_january : result response * store :=
  run (timeseries (py := ascii_py) (Sim.service clear_scenes) no_env
         (post january)) initialised.

(** ** Vocabulary of the further statements *)

(** The exceptions that leave a handler: reading the body, [.get] on a
    body that is not an object, and [int] on the two optional integers
    [k1] and [k2], in this order. *)
Definition escapes {py : PyStr} (k1 : string) (d1 : Z) (k2 : string) (d2 : Z)
  (req : request) (e : exn) : Prop :=
  get_json req = Raise e
  \/ exists j,
       get_json req = Ok j
       /\ (dict_get (py_or j (JObj [])) "geometry" JNull = Raise e
           \/ exists kv,
                py_or j (JObj []) = JObj kv
                /\ (py_int (field k1 kv (JInt d1)) = Raise e
                    \/ ((exists n, py_int (field k1 kv (JInt d1)) = Ok n)
                        /\ py_int (field k2 kv (JInt d2)) = Raise e))).

(** The three answers of /tiles. *)
Definition tiles_answer (resp : response) : Prop :=
  (exists url, resp = jsonify [("status", JStr "ok"); ("tile_url", JStr url)] 200)
  \/ resp = error_response "No geometry provided" 400
  \/ (exists msg, resp = error_response msg 500).

(** The three answers of /timeseries. *)
Definition timeseries_answer (resp : response) : Prop :=
  (exists series,
     resp = jsonify [("status", JStr "ok"); ("series", JArr series)] 200)
  \/ resp = error_response "No geometry provided" 400
  \/ (exists msg, resp = error_response msg 500).



Definition default_collection (environ : string -> option string) (ev : event)
  : Prop :=
  forall id,
    ev = EvBuild (ee.ImageCollection id) ->
    id = match environ "EE_S2_COLLECTION" with
         | Some s => s
         | None => "COPERNICUS/S2_SR_HARMONIZED"
         end.


(** Where the message of a 500 answer of /tiles comes from: the guard, a
    client call that raised, [upper] on the layer, or the fixed text of
    the inner [except] around [getMapId]. *)
Definition tiles_500_cause {py : PyStr} (svc : EarthEngine) (g : globals)
  (req : request) (l : list event) (resp : response) : Prop :=
  (negb (EE_AVAILABLE g) || negb (EE_INITIALIZED g) = true
   /\ resp = error_response
               ("EE not initialized: " ++ format_opt (EE_INIT_ERROR g)) 500)
  \/ (exists e x,
        In (EvBuild e) l /\ ee_build svc e = Some x
        /\ resp = error_response (exn_str x) 500)
  \/ (exists j kv x,
        get_json req = Ok j /\ py_or j (JObj []) = JObj kv
        /\ py_upper (field "layer" kv (JStr "RGB")) = Raise x
        /\ resp = error_response (exn_str x) 500)
  \/ (exists e,
        In (EvGetMapId e) l
        /\ (forall url, ee_getMapId svc e <> Ok {| tile_fetcher := Some url |})
        /\ resp = error_response "Could not generate tile URL from EE" 500).

(** Where the message of a 500 answer of /timeseries comes from: the
    guard, a client call or a [getInfo] that raised, or iterating over
    what a [getInfo] returned. *)
Definition timeseries_500_cause (svc : EarthEngine) (g : globals)
  (l : list event) (resp : response) : Prop :=
  (negb (EE_AVAILABLE g) || negb (EE_INITIALIZED g) = true
   /\ resp = error_response
               ("EE not initialized: " ++ format_opt (EE_INIT_ERROR g)) 500)
  \/ (exists e x,
        In (EvBuild e) l /\ ee_build svc e = Some x
        /\ resp = error_response (exn_str x) 500)
  \/ (exists e x,
        In (EvGetInfo e) l /\ ee_getInfo svc e = Raise x
        /\ resp = error_response (exn_str x) 500)
  \/ (exists e v x,
        In (EvGetInfo e) l /\ ee_getInfo svc e = Ok v /\ py_iter v = Raise x
        /\ resp = error_response (exn_str x) 500).

(** Code that reads the flags and appends to the call log, and does
    nothing else to the store: from any log it gives the result it gives
    from the empty one, and appends the same calls. *)
Definition appends_only {A} (m : M A) : Prop :=
  forall g l,
    m {| flags := g; calls := l |}
    = (fst (run m g),
       {| flags := g; calls := (l ++ calls (snd (run m g)))%list |}).

(** The two messages [init_ee_from_env] returns for a service account
    that could not be used. *)
Definition service_account_message (msg : string) : Prop :=
  msg = "EE_SERVICE_ACCOUNT set but no credentials file provided"
  \/ exists e, msg = "service-account init failed: " ++ exn_str e.

(** *** What is sent to the service *)











(** ** The page on disk: lines 85-89, 149-153, 568-570 and 627-630 *)

(** Files by path, with their text.  Paths are compared as strings. *)
Definition disk : Type := string -> option string.

(** What the module meets on its host: [os.path.dirname(__file__)],
    [os.path.dirname(os.path.abspath(__file__))], and the paths that
    [open(path, 'w')] refuses. *)
Record host : Type := {
  dirname_file : string;
  here : string;
  open_w : string -> option exn
}.

Fixpoint ends_with_slash (s : string) : bool :=
  match s with
  | EmptyString => false
  | String c EmptyString => Ascii.eqb c "/"
  | String _ rest => ends_with_slash rest
  end.

Definition starts_with_slash (s : string) : bool :=
  match s with
  | String c _ => Ascii.eqb c "/"
  | EmptyString => false
  end.

(** [os.path.join(a, b)] *)
Definition path_join (a b : string) : string :=
  if starts_with_slash b then b
  else if String.eqb a EmptyString || ends_with_slash a then a ++ b
  else a ++ "/" ++ b.

(** What [send_from_directory] raises for a file that is not there. *)
Definition NotFound : exn := Exception "NotFound" "404 Not Found".

Section Page.
(** The text of the page, lines 155-566. *)
Variable html : string.
Variable h : host.

(** [with open(out_path, 'w', encoding='utf-8') as f: f.write(html)] *)
Definition write_text (path text : string) (d : disk) : result unit * disk :=
  match open_w h path with
  | Some e => (Raise e, d)
  | None => (Ok tt, fun q => if String.eqb q path then Some text else d q)
  end.

(** [write_monitor_html(out_path=None)], lines 149-570. *)
Definition write_monitor_html (out_path : option string) (d : disk)
  : result string * disk :=
  let out_path :=
    match out_path with
    | None => path_join (here h) "monitor.html"
    | Some p => p
    end in
  match write_text out_path html d with
  | (Ok _, d') => (Ok out_path, d')
  | (Raise e, d') => (Raise e, d')
  end.

(** Lines 629-630, run when the module is imported. *)
Definition ensure_page (d : disk) : result unit * disk :=
  match d (path_join (dirname_file h) "monitor.html") with
  | Some _ => (Ok tt, d)
  | None =>
      match write_monitor_html None d with
      | (Ok _, d') => (Ok tt, d')
      | (Raise e, d') => (Raise e, d')
      end
  end.

(** [monitor()], lines 86-89: the text of the file sent, or 404. *)
Definition monitor (d : disk) : result string :=
  match d (path_join (here h) "monitor.html") with
  | Some text => Ok text
  | None => Raise NotFound
  end.

End Page.

(** ** Further worked inputs *)


(** A request to each route, served one after the other. *)
Definition two_requests : list (route * request) :=
  [(POST_tiles, post (JObj no_dates)); (POST_timeseries, post january)].

(** Default credentials refused, nothing in the environment. *)
Definition refused_default : startup :=
  {| import_ee := None;
     Initialize_default := Some (Exception "EEException" "Please authorize access");
     getenv := fun _ => None;
     write_key_file := fun _ => Ok "/tmp/key.json";
     Initialize_service_account := fun _ _ => None |}.

(** A service account with both a key file and an inline key. *)
Definition both_keys (k : string) : option string :=
  if String.eqb k "EE_SERVICE_ACCOUNT" then Some "robot@project.iam"
  else if String.eqb k "EE_CREDENTIALS_FILE" then Some "/etc/ee/key.json"
  else if String.eqb k "EE_PRIVATE_KEY_JSON" then Some "{}"
  else None.

Definition with_both_keys : startup :=
  {| import_ee := None;
     Initialize_default := Some (Exception "EEException" "Please authorize access");
     getenv := both_keys;
     write_key_file := fun _ => Raise (Exception "OSError" "Read-only file system");
     Initialize_service_account := fun _ _ => None |}.

(** The same, without the inline key. *)
Definition with_key_file : startup :=
  {| import_ee := None;
     Initialize_default := Some (Exception "EEException" "Please authorize access");
     getenv := fun k => if String.eqb k "EE_PRIVATE_KEY_JSON" then None
                        else both_keys k;
     write_key_file := fun _ => Ok "/tmp/key.json";
     Initialize_service_account := fun _ _ => None |}.

(** The module in /app, loaded by its absolute path; every file can be
    written. *)
Definition app_host : host :=
  {| dirname_file := "/app"; here := "/app"; open_w := fun _ => None |}.

(** A disk that holds a page written by an earlier version. *)
Definition stale_disk : disk :=
  fun q => if String.eqb q "/app/monitor.html" then Some "<p>old</p>" else None.

(** ** Weakest preconditions for handler code

    [wp m Q g l]: run from the flags [g] and the call log [l], [m] ends in
    a result, flags and log that satisfy [Q]. *)
Definition wp {A} (m : M A) (Q : result A -> globals -> list event -> Prop)
  (g : globals) (l : list event) : Prop :=
  Q (fst (m {| flags := g; calls := l |}))
    (flags (snd (m {| flags := g; calls := l |})))
    (calls (snd (m {| flags := g; calls := l |}))).

(** * Proofs *)

Lemma wp_ret {A} (a : A) Q g l : Q (Ok a) g l -> wp (ret a) Q g l.
Proof. exact (fun H => H). Qed.

Lemma wp_raise {A} (e : exn) Q g l : Q (Raise e) g l -> wp (@raise A e) Q g l.
Proof. exact (fun H => H). Qed.

Lemma wp_lift {A} (r : result A) Q g l : Q r g l -> wp (lift r) Q g l.
Proof. exact (fun H => H). Qed.

Lemma wp_read_flags Q g l : Q (Ok g) g l -> wp read_flags Q g l.
Proof. exact (fun H => H). Qed.

Lemma wp_bind {A B} (m : M A) (f : A -> M B) Q g l :
  wp m (fun r g1 l1 =>
          match r with
          | Ok a => wp (f a) Q g1 l1
          | Raise x => Q (Raise x) g1 l1
          end) g l ->
  wp (bind m f) Q g l.
Proof.
  unfold wp, bind.
  destruct (m {| flags := g; calls := l |}) as [[a | x] [g1 l1]];
    exact (fun H => H).
Qed.

Lemma wp_try {A} (m : M A) (h : exn -> M A) Q g l :
  wp m (fun r g1 l1 =>
          match r with
          | Ok a => Q (Ok a) g1 l1
          | Raise x => wp (h x) Q g1 l1
          end) g l ->
  wp (try_except m h) Q g l.
Proof.
  unfold wp, try_except.
  destruct (m {| flags := g; calls := l |}) as [[a | x] [g1 l1]];
    exact (fun H => H).
Qed.

Lemma wp_run {A} (m : M A) Q g out s :
  wp m Q g [] -> run m g = (out, s) -> Q out (flags s) (calls s).
Proof. unfold wp, run. intros H E. rewrite E in H. exact H. Qed.

Lemma wp_store {A} (m : M A) Q s :
  wp m Q (flags s) (calls s) ->
  Q (fst (m s)) (flags (snd (m s))) (calls (snd (m s))).
Proof. destruct s. exact (fun H => H). Qed.

Lemma Forall_snoc {A} (P : A -> Prop) l x :
  Forall P l -> P x -> Forall P (l ++ [x]).
Proof.
  intros Hl Hx. apply Forall_app. split; [exact Hl | ].
  constructor; [exact Hx | constructor].
Qed.

Section Calls.
Context {py : PyStr}.
Variable svc : EarthEngine.

Lemma wp_build e Q g l :
  (forall x, ee_build svc e = Some x -> Q (Raise x) g (l ++ [EvBuild e])%list) ->
  (ee_build svc e = None -> Q (Ok e) g (l ++ [EvBuild e])%list) ->
  wp (build svc e) Q g l.
Proof.
  intros Hx Hok. unfold wp, build, bind, emit, raise, ret. cbn.
  destruct (ee_build svc e); cbn; auto.
Qed.

Lemma wp_getMapId e Q g l :
  (forall r, ee_getMapId svc e = r -> Q r g (l ++ [EvGetMapId e])%list) ->
  wp (getMapId svc e) Q g l.
Proof. intros H. unfold wp, getMapId, bind, emit, lift. cbn. auto. Qed.

Lemma wp_getInfo e Q g l :
  (forall r, ee_getInfo svc e = r -> Q r g (l ++ [EvGetInfo e])%list) ->
  wp (getInfo svc e) Q g l.
Proof. intros H. unfold wp, getInfo, bind, emit, lift. cbn. auto. Qed.

Lemma wp_request_get_json req Q g l :
  Q (get_json req) g (l ++ [EvGetJson])%list -> wp (request_get_json req) Q g l.
Proof. exact (fun H => H). Qed.

End Calls.

(** Use the equation the context has for [t], or split on [t]. *)
Ltac known t :=
  first [ match goal with H : t = _ |- _ => rewrite H end
        | destruct t eqn:? ].

(** When the context has an invariant [Forall P l] of the log, extend it
    to the log with [ev]; [check] proves [P ev]. *)
Ltac note check l ev :=
  lazymatch goal with
  | H : Forall ?P l |- _ =>
      let H' := fresh "Inv" in
      assert (H' : Forall P (l ++ [ev]))
        by (apply Forall_snoc; [exact H | check]);
      clear H
  | _ => idtac
  end.

(** One statement of handler code. *)
Ltac wp_step check :=
  lazymatch goal with
  | |- wp (bind _ _) _ _ _ => apply wp_bind
  | |- wp (try_except _ _) _ _ _ => apply wp_try
  | |- wp (build _ ?e) _ _ ?l =>
      note check l (EvBuild e);
      apply wp_build; [ intros ? ? | intros ? ]; lazy beta iota
  | |- wp (getMapId _ ?e) _ _ ?l =>
      note check l (EvGetMapId e);
      apply wp_getMapId; intros [[[?|]]|] ?; lazy beta iota
  | |- wp (getInfo _ ?e) _ _ ?l =>
      note check l (EvGetInfo e);
      apply wp_getInfo; intros [?|?] ?; lazy beta iota
  | |- wp (request_get_json ?req) _ _ ?l =>
      note check l EvGetJson;
      apply wp_request_get_json; known (get_json req); lazy beta iota zeta
  | |- wp (ret _) _ _ _ => apply wp_ret; lazy beta iota
  | |- wp (raise _) _ _ _ => apply wp_raise; lazy beta iota
  | |- wp read_flags _ _ _ => apply wp_read_flags; lazy beta iota
  | |- wp (lift (dict_get (py_or ?a ?b) _ _)) _ _ _ => known (py_or a b)
  | |- wp (lift (dict_get _ _ _)) _ _ _ =>
      apply wp_lift; unfold dict_get at 1; lazy beta iota
  | |- wp (lift (url_format ?m)) _ _ _ =>
      apply wp_lift; unfold url_format at 1; cbn [tile_fetcher]; lazy beta iota
  | |- wp (lift (Ok _)) _ _ _ => apply wp_lift; lazy beta iota
  | |- wp (lift (Raise _)) _ _ _ => apply wp_lift; lazy beta iota
  | |- wp (lift ?r) _ _ _ => known r
  | |- wp (if ?b then _ else _) _ _ _ => known b
  | |- wp (add_ndvi_stats _ _ _ _) _ _ _ => unfold add_ndvi_stats
  | |- wp (tiles_try _ _ _ _ _ _ _ _) _ _ _ => unfold tiles_try
  | |- wp (timeseries_try _ _ _ _ _ _ _) _ _ _ => unfold timeseries_try
  | |- wp (tiles _ _ _) _ _ _ => unfold tiles
  | |- wp (timeseries _ _ _) _ _ _ => unfold timeseries
  end.

Ltac wp_run_with check := repeat (wp_step check).

Ltac wp_go := wp_run_with idtac.

(** ** Tactics for the leaves *)


(** [ev = EvGetMapId e -> composite e], likewise for [EvGetInfo]. *)
Ltac check_shape :=
  intros;
  lazymatch goal with
  | E : _ = _ |- _ =>
      first [ discriminate E
            | injection E as <-; do 2 eexists; reflexivity ]
  end.

(** Membership in a log that grew by one call at a time. *)
Ltac find_in :=
  lazymatch goal with
  | |- In _ (_ ++ [_]) =>
      apply in_or_app; first [ right; left; reflexivity | left; find_in ]
  end.



Lemma error_response_is_error msg code : is_error (error_response msg code).
Proof. exists msg. reflexivity. Qed.

Lemma ready_guard g :
  EE_AVAILABLE g = true -> EE_INITIALIZED g = true ->
  negb (EE_AVAILABLE g) || negb (EE_INITIALIZED g) = false.
Proof. intros -> ->. reflexivity. Qed.

(** ** The module flags and the two guards *)

Section Flags.
Context {py : PyStr}.
Variable svc : EarthEngine.
Variable environ : string -> option string.

Lemma tiles_keeps_flags req g l :
  wp (tiles svc environ req) (fun _ g' _ => g' = g) g l.
Proof. wp_go; reflexivity. Qed.

Lemma timeseries_keeps_flags req g l :
  wp (timeseries svc environ req) (fun _ g' _ => g' = g) g l.
Proof. wp_go; reflexivity. Qed.

Lemma handle_keeps_flags r req s :
  flags (snd (handle svc environ r req s)) = flags s.
Proof.
  destruct r; cbn [handle].
  - exact (wp_store _ _ s (tiles_keeps_flags req (flags s) (calls s))).
  - exact (wp_store _ _ s (timeseries_keeps_flags req (flags s) (calls s))).
Qed.

Lemma serve_keeps_flags reqs :
  forall s, flags (snd (serve svc environ reqs s)) = flags s.
Proof.
  induction reqs as [| [r req] rest IH]; intro s; cbn [serve].
  - reflexivity.
  - pose proof (handle_keeps_flags r req s) as Hh.
    destruct (handle svc environ r req s) as [out s1]. cbn [snd] in Hh.
    specialize (IH s1).
    destruct (serve svc environ rest s1) as [outs s2]. cbn [snd] in *.
    congruence.
Qed.

(** C7.  Neither handler changes [EE_AVAILABLE], [EE_INITIALIZED] or
    [EE_INIT_ERROR]: whatever the request and the state it meets, the
    flags after the handler are the flags before it; and after any
    sequence of requests the flags are still those the import of the
    module left. *)
Theorem handlers_leave_the_flags_unchanged :
  (forall r req s, flags (snd (handle svc environ r req s)) = flags s)
  /\ (forall w reqs,
        flags (snd (serve svc environ reqs (snd (module_init w fresh))))
        = flags_after_import w).
Proof.
  split.
  - exact handle_keeps_flags.
  - intros w reqs. apply serve_keeps_flags.
Qed.

(** C3.  When Earth Engine is unavailable or not initialised, both
    handlers answer 500 with the error envelope naming [EE_INIT_ERROR],
    and leave the store as it was: nothing is logged, so the body of the
    request has not been read, and the answer does not depend on it. *)
Theorem not_initialized_answers_500 req s :
  EE_AVAILABLE (flags s) = false \/ EE_INITIALIZED (flags s) = false ->
  let resp :=
    error_response
      ("EE not initialized: " ++ format_opt (EE_INIT_ERROR (flags s))) 500 in
  tiles svc environ req s = (Ok resp, s)
  /\ timeseries svc environ req s = (Ok resp, s).
Proof.
  intros H resp.
  assert (G : negb (EE_AVAILABLE (flags s)) || negb (EE_INITIALIZED (flags s))
              = true).
  { destruct H as [-> | ->]; [ reflexivity | apply orb_true_r ]. }
  unfold tiles, timeseries, bind, read_flags.
  rewrite G. split; reflexivity.
Qed.

(** C2, amended.  With Earth Engine available and initialised, a body
    that is a JSON object (or empty) without a truthy [geometry], and
    optional integer fields that [int] accepts, both handlers answer 400
    with the envelope [{status: 'error', error: 'No geometry provided'}],
    having made no call but reading the body. *)
Theorem missing_geometry_answers_400 g req j kv :
  EE_AVAILABLE g = true -> EE_INITIALIZED g = true ->
  get_json req = Ok j ->
  py_or j (JObj []) = JObj kv ->
  truthy (field "geometry" kv JNull) = false ->
  let resp := error_response "No geometry provided" 400 in
  let s' := {| flags := g; calls := [EvGetJson] |} in
  (forall ct bm,
     py_int (field "cloud_threshold" kv (JInt 20)) = Ok ct ->
     py_int (field "buffer" kv (JInt 500)) = Ok bm ->
     run (tiles svc environ req) g = (Ok resp, s'))
  /\ (forall sc ct,
        py_int (field "scale" kv (JInt 10)) = Ok sc ->
        py_int (field "cloud_threshold" kv (JInt 20)) = Ok ct ->
        run (timeseries svc environ req) g = (Ok resp, s')).
Proof.
  intros HA HI Hj Hd Hg resp s'.
  pose proof (ready_guard g HA HI) as G.
  assert (Hn : negb (truthy (field "geometry" kv JNull)) = true)
    by (rewrite Hg; reflexivity).
  split; intros a b Ha Hb.
  - assert (W : wp (tiles svc environ req)
                  (fun r g' l => r = Ok resp /\ g' = g /\ l = [EvGetJson]) g []).
    { wp_go. repeat split. }
    destruct (run (tiles svc environ req) g) as [out [g' l]] eqn:E.
    pose proof (wp_run _ _ _ _ _ W E) as H. cbn [flags calls] in H.
    destruct H as (-> & -> & ->). reflexivity.
  - assert (W : wp (timeseries svc environ req)
                  (fun r g' l => r = Ok resp /\ g' = g /\ l = [EvGetJson]) g []).
    { wp_go. repeat split. }
    destruct (run (timeseries svc environ req) g) as [out [g' l]] eqn:E.
    pose proof (wp_run _ _ _ _ _ W E) as H. cbn [flags calls] in H.
    destruct H as (-> & -> & ->). reflexivity.
Qed.

(** What the [try] blocks catch: they never raise, and answer with the
    ok envelope or with a 500 error envelope. *)
Lemma try_blocks_answer_with_an_envelope geom layer start end_ a b g l :
  wp (tiles_try svc environ geom layer start end_ a b)
     (fun r _ _ => exists resp, r = Ok resp
        /\ (status_code resp = 200 \/ (status_code resp = 500 /\ is_error resp)))
     g l
  /\ wp (timeseries_try svc environ geom start end_ a b)
       (fun r _ _ => exists resp, r = Ok resp
          /\ (status_code resp = 200 \/ (status_code resp = 500 /\ is_error resp)))
       g l.
Proof.
  split; wp_go.
  all: eexists; split; [ reflexivity | ].
  all: first [ left; reflexivity
             | right; split; [ reflexivity | apply error_response_is_error ] ].
Qed.

(** Nothing is retried: one request to /tiles sends at most one request
    to the service, one to /timeseries at most one per array. *)
Lemma handlers_do_not_retry g req :
  wp (tiles svc environ req) (fun _ _ l => (service_requests l <= 1)%nat) g []
  /\ wp (timeseries svc environ req)
       (fun _ _ l => (service_requests l <= 2)%nat) g [].
Proof.
  split; wp_go.
  all: vm_compute; repeat constructor.
Qed.

End Flags.

(** The flags the import leaves: initialised implies available. *)
Lemma initialised_implies_available w :
  EE_INITIALIZED (flags_after_import w) = true ->
  EE_AVAILABLE (flags_after_import w) = true.
Proof.
  unfold flags_after_import, module_init, init_ee_from_env, raise_if,
    try_except, bind, write_flags, ret, raise, lift, fresh.
  repeat (cbn;
          match goal with
          | |- context [match ?x with _ => _ end] =>
              lazymatch x with
              | context [match _ with _ => _ end] => fail
              | _ => destruct x
              end
          end).
  all: cbn; first [ reflexivity | discriminate ].
Qed.

(** Default credentials refused and no service account in the
    environment: the function ends in [UnboundLocalError], which the
    module catches by giving up on Earth Engine. *)
Example import_without_credentials :
  flags_after_import
    {| import_ee := None;
       Initialize_default := Some (Exception "EEException" "Please authorize access");
       getenv := fun _ => None;
       write_key_file := fun _ => Ok "/tmp/key.json";
       Initialize_service_account := fun _ _ => None |}
  = {| EE_AVAILABLE := false; EE_INITIALIZED := false; EE_INIT_ERROR := None |}.
Proof. reflexivity. Qed.

(** ** /tiles: what is forwarded *)

Section Tiles.
Context {py : PyStr}.
Variable svc : EarthEngine.
Variable environ : string -> option string.







End Tiles.

(** ** Requests without a date range *)



Section Dates.
Context {py : PyStr}.
Variable svc : EarthEngine.
Variable environ : string -> option string.



End Dates.

(** ** /timeseries: the series *)


Lemma length_zip_series ds vs :
  (List.length (zip_series ds vs) <= List.length ds)%nat.
Proof.
  unfold zip_series. rewrite length_map, length_combine. apply Nat.le_min_l.
Qed.

(** The [i]-th element of the series pairs the [i]-th date with the
    [i]-th value. *)
Lemma nth_zip_series ds : forall vs i d v,
  nth_error ds i = Some d -> nth_error vs i = Some v ->
  nth_error (zip_series ds vs) i = Some (JObj [("date", d); ("value", v)]).
Proof.
  unfold zip_series.
  induction ds as [| d0 ds IH]; intros [| v0 vs] [| i] d v Hd Hv;
    try discriminate; cbn [combine List.map nth_error] in *.
  - injection Hd as <-. injection Hv as <-. reflexivity.
  - exact (IH vs i d v Hd Hv).
Qed.


Section Series.
Context {py : PyStr}.
Variable svc : EarthEngine.
Variable environ : string -> option string.

Lemma timeseries_spec g req :
  wp (timeseries svc environ req)
     (fun r _ l =>
        Forall sorted_and_limited l
        /\ (forall resp, r = Ok resp -> is_error resp \/ series_of svc resp))
     g [].
Proof.
  assert (Inv : Forall sorted_and_limited []) by constructor.
  wp_run_with ltac:(unfold sorted_and_limited; check_shape).
  all: split; [ assumption | ].
  all: intros resp E; first [ discriminate E | injection E as <- ].
  all: first [ left; apply error_response_is_error | right ].
  all: do 6 eexists; cbv zeta; repeat split; try eassumption.
  all: eexists; reflexivity.
Qed.

Lemma timeseries_ok g req resp s' series :
  run (timeseries svc environ req) g = (Ok resp, s') ->
  body resp = JObj [("status", JStr "ok"); ("series", JArr series)] ->
  exists c fn dates values ds vs,
    let stats_coll := ee.limit (ee.sort (ee.map c fn) "system:time_start") 256 in
    sets_date_from_time_start fn
    /\ ee_getInfo svc (ee.aggregate_array stats_coll "date") = Ok dates
    /\ ee_getInfo svc (ee.aggregate_array stats_coll "mean_ndvi") = Ok values
    /\ py_iter dates = Ok ds
    /\ py_iter values = Ok vs
    /\ series = zip_series ds vs.
Proof.
  intros Hrun Hbody.
  destruct (wp_run _ _ _ _ _ (timeseries_spec g req) Hrun) as [_ H].
  destruct (H resp eq_refl) as [[msg Hmsg] | Hs].
  - rewrite Hmsg in Hbody. discriminate Hbody.
  - destruct Hs
      as (c & fn & dates & values & ds & vs & Hfn & Hd & Hv & Hds & Hvs & ->).
    cbn [body jsonify] in Hbody. injection Hbody as <-.
    exists c, fn, dates, values, ds, vs. repeat split; assumption.
Qed.

(** C8.  Against a service on which [limit n] leaves at most [n]
    elements to aggregate, the series of every ok answer of /timeseries
    has at most 256 elements; and every array the handler asks the
    service for is aggregated over [limit 256] of the collection sorted
    by [system:time_start]. *)
Theorem series_has_at_most_256_elements g req resp s' series :
  honours_limit svc ->
  run (timeseries svc environ req) g = (Ok resp, s') ->
  body resp = JObj [("status", JStr "ok"); ("series", JArr series)] ->
  (List.length series <= 256)%nat
  /\ (forall e, In (EvGetInfo e) (calls s') ->
      exists c prop,
        e = ee.aggregate_array (ee.limit (ee.sort c "system:time_start") 256) prop).
Proof.
  intros Hlimit Hrun Hbody. split.
  - destruct (timeseries_ok g req resp s' series Hrun Hbody)
      as (c & fn & dates & values & ds & vs & _ & Hd & _ & Hds & _ & ->).
    destruct (Hlimit _ _ _ _ Hd) as (l & -> & Hlen).
    injection Hds as <-.
    pose proof (length_zip_series l vs) as Hz.
    change (Z.to_nat 256) with 256%nat in Hlen. lia.
  - destruct (wp_run _ _ _ _ _ (timeseries_spec g req) Hrun) as [Hall _].
    rewrite Forall_forall in Hall.
    intros e Hin. exact (Hall _ Hin e eq_refl).
Qed.


End Series.

(** ** The simulated service keeps its side *)





Lemma length_present l : (List.length (Sim.present l) <= List.length l)%nat.
Proof.
  induction l as [| i l IH]; cbn [Sim.present List.length].
  - apply Nat.le_refl.
  - destruct (Sim.region_mean_ndvi i); cbn [List.length]; lia.
Qed.


Lemma sim_honours_limit catalogue : honours_limit (Sim.service catalogue).
Proof.
  intros c n prop v.
  cbn [Sim.service ee_getInfo Sim.getInfo Sim.collection].
  destruct (Sim.collection catalogue c) as [l | x]; [ | discriminate ].
  pose proof (firstn_le_length (Z.to_nat n) l) as Hn.
  destruct (String.eqb prop "date").
  - intros [= <-]. eexists. split; [ reflexivity | ].
    unfold Sim.dates. rewrite length_map. exact Hn.
  - destruct (String.eqb prop "mean_ndvi"); [ | discriminate ].
    intros [= <-]. eexists. split; [ reflexivity | ].
    pose proof (length_present (firstn (Z.to_nat n) l)). lia.
Qed.

(** When no image lacks its mean, the simulated arrays line up: the
    series pairs each image's date with that image's mean. *)
Lemma present_all l :
  Forall (fun i => Sim.region_mean_ndvi i <> None) l ->
  zip_series (Sim.dates l) (Sim.present l)
  = List.map (fun i => JObj [("date", JStr (Sim.date_of (Sim.time_start i)));
                             ("value", match Sim.region_mean_ndvi i with
                                       | Some v => v
                                       | None => JNull
                                       end)]) l.
Proof.
  induction 1 as [| i l Hi Hl IH]; [ reflexivity | ].
  cbn [Sim.dates Sim.present List.map].
  destruct (Sim.region_mean_ndvi i) as [v |]; [ | contradiction ].
  unfold zip_series in *. cbn [combine List.map fst snd].
  f_equal. exact IH.
Qed.

(** ** Closed runs *)

(** C1.  A request to /tiles or /timeseries with a geometry and
    [cloud_threshold: 'abc'], served with Earth Engine initialised,
    whatever the service: [int] raises [ValueError] before the [try]
    block is entered, the exception leaves the handler, and no envelope
    is returned. *)
Theorem non_integer_cloud_threshold_escapes_the_handlers :
  forall svc environ,
    let e :=
      Exception "ValueError" "invalid literal for int() with base 10: 'abc'" in
    let s := {| flags := initialised; calls := [EvGetJson] |} in
    run (tiles (py := ascii_py) svc environ (post bad_threshold)) initialised
    = (Raise e, s)
    /\ run (timeseries (py := ascii_py) svc environ (post bad_threshold))
         initialised
       = (Raise e, s).
Proof. intros svc environ. split; reflexivity. Qed.

(** C5.  Two images match the request; the image of 2024-01-01 has no
    mean over the region and the image of 2024-01-06 has mean 0.5.  The
    date array has both dates, the value array only the one mean, and
    the answer is one element that pairs the date of the first image with
    the mean of the second. *)
Theorem absent_mean_pairs_a_date_with_the_next_value :
  List.map (fun i => (Sim.date_of (Sim.time_start i), Sim.region_mean_ndvi i))
    masked_then_clear
  = [("2024-01-01", None); ("2024-01-06", Some half)]
  /\ fst (run (timeseries (py := ascii_py) (Sim.service masked_then_clear)
                 no_env (post january)) initialised)
     = Ok (ok_series [JObj [("date", JStr "2024-01-01"); ("value", half)]]).
Proof. split; vm_compute; reflexivity. Qed.

(** A layer that is not a string has no [upper]: the [AttributeError]
    is raised inside the [try] block and answered 500. *)
Example numeric_layer_is_answered_500 :
  fst (run (tiles (py := ascii_py) (Sim.service clear_scenes) no_env
              (post numeric_layer)) initialised)
  = Ok (error_response "'int' object has no attribute 'upper'" 500).
Proof. vm_compute. reflexivity. Qed.

(** A body that is a non-empty JSON array has no [get]: that
    [AttributeError] is raised before the [try] block, like the
    [ValueError] of [int]. *)
Example array_body_escapes_the_handler :
  fst (run (tiles (py := ascii_py) (Sim.service clear_scenes) no_env
              (post (JArr [JInt 1]))) initialised)
  = Raise (Exception "AttributeError" "'list' object has no attribute 'get'").
Proof. vm_compute. reflexivity. Qed.

(** C2 as stated fails: a body without geometry, served before Earth
    Engine is initialised, is answered 500 by the guard, not 400. *)
Lemma missing_geometry_before_initialisation_is_500 :
  ~ (forall (g : globals) (req : request) kv,
       get_json req = Ok (JObj kv) -> lookup "geometry" kv = None ->
       (exists s, run (tiles (py := ascii_py) quiet no_env req) g
                  = (Ok (error_response "No geometry provided" 400), s))
       /\ (exists s, run (timeseries (py := ascii_py) quiet no_env req) g
                     = (Ok (error_response "No geometry provided" 400), s))).
Proof.
  intros H.
  destruct (H (flags fresh) (post (JObj no_geometry)) no_geometry
              eq_refl eq_refl) as [[s E] _].
  vm_compute in E. discriminate E.
Qed.

(** ** Witnesses *)

(** A fresh process, before any initialisation: the guard answers. *)
Lemma not_initialized_answers_500_witness :
  (EE_AVAILABLE (flags fresh) = false \/ EE_INITIALIZED (flags fresh) = false)
  /\ tiles (py := ascii_py) quiet no_env (post bad_threshold) fresh
     = (Ok (error_response "EE not initialized: None" 500), fresh).
Proof.
  split; [ left; reflexivity | ].
  exact (proj1 (not_initialized_answers_500 (py := ascii_py) quiet no_env
                  (post bad_threshold) fresh (or_introl eq_refl))).
Defined.

(** The body [{layer: 'NDVI', buffer: '250'}] with Earth Engine initialised. *)
Lemma missing_geometry_answers_400_witness :
  (EE_AVAILABLE initialised = true /\ EE_INITIALIZED initialised = true
   /\ get_json (post (JObj no_geometry)) = Ok (JObj no_geometry)
   /\ py_or (JObj no_geometry) (JObj []) = JObj no_geometry
   /\ truthy (field "geometry" no_geometry JNull) = false)
  /\ run (tiles (py := ascii_py) quiet no_env (post (JObj no_geometry)))
       initialised
     = (Ok (error_response "No geometry provided" 400),
        {| flags := initialised; calls := [EvGetJson] |}).
Proof.
  split; [ repeat split | ].
  apply (proj1 (missing_geometry_answers_400 (py := ascii_py) quiet no_env
                  initialised (post (JObj no_geometry)) (JObj no_geometry)
                  no_geometry eq_refl eq_refl eq_refl eq_refl eq_refl)
           20 250); reflexivity.
Defined.


(** The January request over the four simulated scenes: three clear ones come back. *)
Lemma series_has_at_most_256_elements_witness :
  (honours_limit (Sim.service clear_scenes)
   /\ timeseries_january = (Ok (ok_series clear_series), snd timeseries_january)
   /\ body (ok_series clear_series)
      = JObj [("status", JStr "ok"); ("series", JArr clear_series)])
  /\ (List.length clear_series <= 256)%nat.
Proof.
  assert (Hrun : run (timeseries (py := ascii_py) (Sim.service clear_scenes)
                        no_env (post january)) initialised
                 = (Ok (ok_series clear_series), snd timeseries_january))
    by (vm_compute; reflexivity).
  split; [ split; [ apply sim_honours_limit | split; [ exact Hrun | reflexivity ] ] | ].
  exact (proj1 (series_has_at_most_256_elements (py := ascii_py)
                  (Sim.service clear_scenes) no_env initialised (post january)
                  (ok_series clear_series) (snd timeseries_january) clear_series
                  (sim_honours_limit clear_scenes) Hrun eq_refl)).
Defined.


(** * Further properties of the handlers *)

(** ** What leaves a handler, and what it answers *)

Ltac escape_leaf :=
  let e := fresh "e" in
  let E := fresh "E" in
  intros e E; first [ discriminate E | injection E as <- ];
  split; [ reflexivity | ]; unfold escapes;
  first
    [ left; assumption
    | right; eexists; split; [ eassumption | ];
      first
        [ left;
          lazymatch goal with
          | H : py_or _ _ = _ |- _ => rewrite H
          end; reflexivity
        | right; eexists; split; [ eassumption | ];
          first [ left; eassumption
                | right; split; [ eexists; eassumption | eassumption ] ] ] ].

Ltac envelope_leaf :=
  first [ left; eexists; reflexivity
        | right; left; reflexivity
        | right; right; eexists; reflexivity ].

Section Outcomes.
Context {py : PyStr}.
Variable svc : EarthEngine.
Variable environ : string -> option string.

Lemma tiles_outcome g req :
  wp (tiles svc environ req)
     (fun r _ l =>
        (forall e, r = Raise e ->
           l = [EvGetJson] /\ escapes "cloud_threshold" 20 "buffer" 500 req e)
        /\ (forall resp, r = Ok resp -> tiles_answer resp))
     g [].
Proof.
  wp_go.
  all: split; [ try (intros ? [=]; fail); try escape_leaf | ].
  all: try (intros ? [=]; fail).
  all: intros resp E; injection E as <-; unfold tiles_answer.
  all: envelope_leaf.
Qed.

Lemma timeseries_outcome g req :
  wp (timeseries svc environ req)
     (fun r _ l =>
        (forall e, r = Raise e ->
           l = [EvGetJson] /\ escapes "scale" 10 "cloud_threshold" 20 req e)
        /\ (forall resp, r = Ok resp -> timeseries_answer resp))
     g [].
Proof.
  wp_go.
  all: split; [ try (intros ? [=]; fail); try escape_leaf | ].
  all: try (intros ? [=]; fail).
  all: intros resp E; injection E as <-; unfold timeseries_answer.
  all: envelope_leaf.
Qed.

(** X1.  An exception leaves a handler only from the four statements
    that precede its [try] block: [request.get_json()] itself, [.get] on
    a body that is not an object, and [int] on the two optional integer
    fields, the second only when the first converted.  When it does, the
    body has been read and Earth Engine has not been called. *)
Theorem only_the_body_and_int_escape g req e s' :
  (run (tiles svc environ req) g = (Raise e, s') ->
   calls s' = [EvGetJson] /\ escapes "cloud_threshold" 20 "buffer" 500 req e)
  /\ (run (timeseries svc environ req) g = (Raise e, s') ->
      calls s' = [EvGetJson] /\ escapes "scale" 10 "cloud_threshold" 20 req e).
Proof.
  split; intros Hrun.
  - exact (proj1 (wp_run _ _ _ _ _ (tiles_outcome g req) Hrun) e eq_refl).
  - exact (proj1 (wp_run _ _ _ _ _ (timeseries_outcome g req) Hrun) e eq_refl).
Qed.

(** X2.  Whenever a handler returns, the answer is one of three: status
    200 with [{status: 'ok', tile_url}] (or [{status: 'ok', series}]),
    status 400 with the envelope 'No geometry provided', or status 500
    with an error envelope.  No other status and no other body shape is
    ever returned. *)
Theorem every_answer_is_an_envelope g req resp s' :
  (run (tiles svc environ req) g = (Ok resp, s') -> tiles_answer resp)
  /\ (run (timeseries svc environ req) g = (Ok resp, s') -> timeseries_answer resp).
Proof.
  split; intros Hrun.
  - exact (proj2 (wp_run _ _ _ _ _ (tiles_outcome g req) Hrun) resp eq_refl).
  - exact (proj2 (wp_run _ _ _ _ _ (timeseries_outcome g req) Hrun) resp eq_refl).
Qed.

(** X3.  One request to /tiles sends at most one request to Earth Engine
    (the [getMapId]), one request to /timeseries at most two (the two
    [getInfo]), whatever the service answers: a failed call is not
    repeated. *)
Theorem nothing_is_retried g req :
  (service_requests (calls (snd (run (tiles svc environ req) g))) <= 1)%nat
  /\ (service_requests (calls (snd (run (timeseries svc environ req) g))) <= 2)%nat.
Proof.
  destruct (handlers_do_not_retry svc environ g req) as [Ht Hts]. split.
  - exact (wp_run _ _ g _ _ Ht (surjective_pairing _)).
  - exact (wp_run _ _ g _ _ Hts (surjective_pairing _)).
Qed.

End Outcomes.

(** ** What both handlers send to Earth Engine *)



Section Forwarding.
Context {py : PyStr}.
Variable svc : EarthEngine.
Variable environ : string -> option string.




Lemma handlers_default_collection g req :
  wp (tiles svc environ req) (fun _ _ l => Forall (default_collection environ) l) g []
  /\ wp (timeseries svc environ req)
       (fun _ _ l => Forall (default_collection environ) l) g [].
Proof.
  split.
  all: assert (Inv : Forall (default_collection environ) []) by constructor.
  all: wp_run_with ltac:(unfold default_collection; intros ? [= <-]; reflexivity).
  all: assumption.
Qed.

(** X5.  The only image collection either handler opens is the one
    named by the environment variable [EE_S2_COLLECTION], or
    'COPERNICUS/S2_SR_HARMONIZED' when the variable is unset; the request
    cannot choose another. *)
Theorem the_collection_is_the_environment_s_or_the_default g req id :
  In (EvBuild (ee.ImageCollection id))
     (calls (snd (run (tiles svc environ req) g)))
  \/ In (EvBuild (ee.ImageCollection id))
       (calls (snd (run (timeseries svc environ req) g))) ->
  id = match environ "EE_S2_COLLECTION" with
       | Some s => s
       | None => "COPERNICUS/S2_SR_HARMONIZED"
       end.
Proof.
  destruct (handlers_default_collection g req) as [Ht Hts].
  pose proof (wp_run _ _ g _ _ Ht (surjective_pairing _)) as H1.
  pose proof (wp_run _ _ g _ _ Hts (surjective_pairing _)) as H2.
  cbv beta in H1, H2. rewrite Forall_forall in H1, H2.
  intros [Hin | Hin].
  - exact (H1 _ Hin id eq_refl).
  - exact (H2 _ Hin id eq_refl).
Qed.




End Forwarding.

(** ** The message of a 500 answer *)

Ltac tiles_cause_leaf :=
  first
    [ left; split; [ assumption | reflexivity ]
    | right; left;
      lazymatch goal with
      | H : ee_build _ ?e = Some ?x |- _ =>
          exists e, x; split; [ find_in | split; [ exact H | reflexivity ] ]
      end
    | right; right; left;
      lazymatch goal with
      | H : py_upper (field _ ?kv _) = Raise ?x,
        Hd : py_or ?j _ = JObj ?kv, Hj : get_json _ = Ok ?j |- _ =>
          exists j, kv, x;
          split; [ exact Hj | split; [ exact Hd | split; [ exact H | reflexivity ] ] ]
      end
    | right; right; right;
      lazymatch goal with
      | H : ee_getMapId _ ?e = _ |- _ =>
          exists e; split;
          [ find_in | split; [ intros url; rewrite H; discriminate | reflexivity ] ]
      end ].

Ltac timeseries_cause_leaf :=
  first
    [ left; split; [ assumption | reflexivity ]
    | right; left;
      lazymatch goal with
      | H : ee_build _ ?e = Some ?x |- _ =>
          exists e, x; split; [ find_in | split; [ exact H | reflexivity ] ]
      end
    | right; right; left;
      lazymatch goal with
      | H : ee_getInfo _ ?e = Raise ?x |- _ =>
          exists e, x; split; [ find_in | split; [ exact H | reflexivity ] ]
      end
    | right; right; right;
      lazymatch goal with
      | P : py_iter ?v = Raise ?x, H : ee_getInfo _ ?e = Ok ?v |- _ =>
          exists e, v, x; split;
          [ find_in | split; [ exact H | split; [ exact P | reflexivity ] ] ]
      end ].

Section Causes.
Context {py : PyStr}.
Variable svc : EarthEngine.
Variable environ : string -> option string.

Lemma tiles_cause g req :
  wp (tiles svc environ req)
     (fun r _ l =>
        forall resp, r = Ok resp -> status_code resp = 500 ->
                     tiles_500_cause svc g req l resp)
     g [].
Proof.
  wp_go.
  all: intros resp E C; first [ discriminate E | injection E as <- ];
    try discriminate C.
  all: unfold tiles_500_cause; tiles_cause_leaf.
Qed.

Lemma timeseries_cause g req :
  wp (timeseries svc environ req)
     (fun r _ l =>
        forall resp, r = Ok resp -> status_code resp = 500 ->
                     timeseries_500_cause svc g l resp)
     g [].
Proof.
  wp_go.
  all: intros resp E C; first [ discriminate E | injection E as <- ];
    try discriminate C.
  all: unfold timeseries_500_cause; timeseries_cause_leaf.
Qed.

(** X7.  Every 500 answer carries the text of what went wrong, with one
    exception.  It is 'EE not initialized: ...' from the guard, or
    [str(e)] of the exception a logged Earth Engine call raised (or of
    the failure of [upper] on the layer, or of iterating over what
    [getInfo] returned).  Only a [getMapId] that raised or gave no tile
    fetcher is answered with the fixed text 'Could not generate tile URL
    from EE', whatever the service said. *)
Theorem every_500_names_its_cause g req resp s' :
  status_code resp = 500 ->
  (run (tiles svc environ req) g = (Ok resp, s') ->
   tiles_500_cause svc g req (calls s') resp)
  /\ (run (timeseries svc environ req) g = (Ok resp, s') ->
      timeseries_500_cause svc g (calls s') resp).
Proof.
  intros C. split; intros Hrun.
  - exact (wp_run _ _ _ _ _ (tiles_cause g req) Hrun resp eq_refl C).
  - exact (wp_run _ _ _ _ _ (timeseries_cause g req) Hrun resp eq_refl C).
Qed.

(** X8.  The series of an ok answer is the two arrays the service
    returned for 'date' and 'mean_ndvi' of one collection, paired by
    position: element [i] is [{date: dates[i], value: values[i]}], and
    the series is as long as the shorter array. *)
Theorem series_pairs_by_position g req resp s' series :
  run (timeseries svc environ req) g = (Ok resp, s') ->
  body resp = JObj [("status", JStr "ok"); ("series", JArr series)] ->
  exists c dates values ds vs,
    ee_getInfo svc (ee.aggregate_array c "date") = Ok dates
    /\ ee_getInfo svc (ee.aggregate_array c "mean_ndvi") = Ok values
    /\ py_iter dates = Ok ds
    /\ py_iter values = Ok vs
    /\ List.length series = Nat.min (List.length ds) (List.length vs)
    /\ (forall i d v,
          nth_error ds i = Some d -> nth_error vs i = Some v ->
          nth_error series i = Some (JObj [("date", d); ("value", v)])).
Proof.
  intros Hrun Hbody.
  destruct (timeseries_ok svc environ g req resp s' series Hrun Hbody)
    as (c & fn & dates & values & ds & vs & _ & Hd & Hv & Hds & Hvs & ->).
  eexists _, dates, values, ds, vs.
  split; [ exact Hd | ]. split; [ exact Hv | ].
  split; [ exact Hds | ]. split; [ exact Hvs | ]. split.
  - unfold zip_series. rewrite length_map, length_combine. reflexivity.
  - intros i d v. apply nth_zip_series.
Qed.

End Causes.

(** ** Requests do not see each other *)

Lemma appends_only_ret {A} (a : A) : appends_only (ret a).
Proof. intros g l. unfold run, ret. cbn. rewrite app_nil_r. reflexivity. Qed.

Lemma appends_only_raise {A} (e : exn) : appends_only (@raise A e).
Proof. intros g l. unfold run, raise. cbn. rewrite app_nil_r. reflexivity. Qed.

Lemma appends_only_lift {A} (r : result A) : appends_only (lift r).
Proof. intros g l. unfold run, lift. cbn. rewrite app_nil_r. reflexivity. Qed.

Lemma appends_only_read_flags : appends_only read_flags.
Proof.
  intros g l. unfold run, read_flags. cbn. rewrite app_nil_r. reflexivity.
Qed.

Lemma appends_only_emit ev : appends_only (emit ev).
Proof. intros g l. reflexivity. Qed.

Lemma appends_only_bind {A B} (m : M A) (f : A -> M B) :
  appends_only m -> (forall a, appends_only (f a)) -> appends_only (bind m f).
Proof.
  intros Hm Hf g l. unfold run, bind.
  pose proof (Hm g l) as E. pose proof (Hm g []) as E0. unfold run in E, E0.
  destruct (m {| flags := g; calls := [] |}) as [r [g0 l0]].
  cbn [fst snd app calls] in E, E0. rewrite E.
  injection E0 as ->.
  destruct r as [a | x]; cbn [fst snd calls].
  - rewrite (Hf a g (l ++ l0)%list), (Hf a g l0).
    cbn [fst snd calls]. rewrite app_assoc. reflexivity.
  - reflexivity.
Qed.

Lemma appends_only_try {A} (m : M A) (h : exn -> M A) :
  appends_only m -> (forall x, appends_only (h x)) ->
  appends_only (try_except m h).
Proof.
  intros Hm Hh g l. unfold run, try_except.
  pose proof (Hm g l) as E. pose proof (Hm g []) as E0. unfold run in E, E0.
  destruct (m {| flags := g; calls := [] |}) as [r [g0 l0]].
  cbn [fst snd app calls] in E, E0. rewrite E.
  injection E0 as ->.
  destruct r as [a | x]; cbn [fst snd calls].
  - reflexivity.
  - rewrite (Hh x g (l ++ l0)%list), (Hh x g l0).
    cbn [fst snd calls]. rewrite app_assoc. reflexivity.
Qed.

Ltac appends_only_step :=
  lazymatch goal with
  | |- appends_only (bind _ _) => apply appends_only_bind; [ | intro ]
  | |- appends_only (try_except _ _) => apply appends_only_try; [ | intro ]
  | |- appends_only (ret _) => apply appends_only_ret
  | |- appends_only (raise _) => apply appends_only_raise
  | |- appends_only (lift _) => apply appends_only_lift
  | |- appends_only read_flags => apply appends_only_read_flags
  | |- appends_only (emit _) => apply appends_only_emit
  | |- appends_only (if ?b then _ else _) => destruct b
  | |- appends_only (match ?x with _ => _ end) => destruct x
  | |- appends_only (build _ _) => unfold build
  | |- appends_only (getMapId _ _) => unfold getMapId
  | |- appends_only (getInfo _ _) => unfold getInfo
  | |- appends_only (request_get_json _) => unfold request_get_json
  | |- appends_only (add_ndvi_stats _ _ _ _) => unfold add_ndvi_stats
  | |- appends_only (tiles_try _ _ _ _ _ _ _ _) => unfold tiles_try
  | |- appends_only (timeseries_try _ _ _ _ _ _ _) => unfold timeseries_try
  | |- appends_only (tiles _ _ _) => unfold tiles
  | |- appends_only (timeseries _ _ _) => unfold timeseries
  | |- appends_only (handle _ _ _ _) => unfold handle
  | |- appends_only _ => cbv zeta
  end.

Section Alone.
Context {py : PyStr}.
Variable svc : EarthEngine.
Variable environ : string -> option string.

Lemma handle_appends_only r req : appends_only (handle svc environ r req).
Proof. repeat appends_only_step. Qed.

(** X9.  Requests served one after the other do not influence each
    other: the answer to each request of a sequence (or the exception
    that leaves its handler) is what the handler gives for that request
    alone, from the flags the sequence started with.  Nothing a request
    does is remembered for the next. *)
Theorem each_request_is_answered_as_if_alone reqs : forall s i r req,
  nth_error reqs i = Some (r, req) ->
  nth_error (fst (serve svc environ reqs s)) i
  = Some (fst (run (handle svc environ r req) (flags s))).
Proof.
  induction reqs as [| [r0 req0] rest IH]; intros s i r req Hi.
  - destruct i; discriminate Hi.
  - cbn [serve].
    pose proof (handle_appends_only r0 req0 (flags s) (calls s)) as E.
    destruct s as [g l]. cbn [flags calls] in *.
    rewrite E.
    specialize (IH {| flags := g;
                      calls := (l ++ calls (snd (run (handle svc environ r0 req0)
                                                   g)))%list |}).
    destruct (serve svc environ rest _) as [outs s2].
    destruct i as [| i]; cbn [nth_error fst] in *.
    + injection Hi as <- <-. reflexivity.
    + exact (IH i r req Hi).
Qed.

End Alone.

(** * Import time *)

Ltac split_import :=
  unfold flags_after_import, module_init, init_ee_from_env, raise_if,
    try_except, bind, write_flags, ret, raise, lift, fresh;
  repeat (cbn;
          match goal with
          | |- context [match ?x with _ => _ end] =>
              lazymatch x with
              | context [match _ with _ => _ end] => fail
              | _ => destruct x
              end
          end);
  cbn.

(** X10.  The import of the flags section never fails, and leaves one
    of three states: Earth Engine available and initialised, with no
    error recorded; Earth Engine given up ([EE_AVAILABLE] false), not
    initialised, with no error recorded; or available, not initialised,
    with one of the two service-account messages as [EE_INIT_ERROR].
    The message 'default init failed: ...' is never recorded. *)
Theorem import_leaves_one_of_three_states w :
  fst (module_init w fresh) = Ok tt
  /\ (flags_after_import w = initialised
      \/ flags_after_import w
         = {| EE_AVAILABLE := false; EE_INITIALIZED := false;
              EE_INIT_ERROR := None |}
      \/ exists msg,
           flags_after_import w
           = {| EE_AVAILABLE := true; EE_INITIALIZED := false;
                EE_INIT_ERROR := Some msg |}
           /\ service_account_message msg).
Proof.
  split_import.
  all: split; [ reflexivity | ].
  all: first [ left; reflexivity
             | right; left; reflexivity
             | right; right; eexists; split; [ reflexivity | ];
               first [ left; reflexivity | right; eexists; reflexivity ] ].
Qed.

(** X11.  When [import ee] succeeds, [ee.Initialize()] with default
    credentials fails and no service account is configured, the reason
    is lost: [init_ee_from_env] reaches [str(default_err)] after the
    name was unbound, the module catches that by setting [EE_AVAILABLE]
    to false, and every request to /tiles or /timeseries is answered 500
    with 'EE not initialized: None', without reading the request. *)
Theorem default_failure_alone_is_reported_as_None {py : PyStr} w e :
  import_ee w = None ->
  Initialize_default w = Some e ->
  env_truthy (getenv w "EE_SERVICE_ACCOUNT") = false ->
  flags_after_import w
  = {| EE_AVAILABLE := false; EE_INITIALIZED := false; EE_INIT_ERROR := None |}
  /\ forall svc environ req,
       let resp := error_response "EE not initialized: None" 500 in
       let s := {| flags := flags_after_import w; calls := [] |} in
       run (tiles svc environ req) (flags_after_import w) = (Ok resp, s)
       /\ run (timeseries svc environ req) (flags_after_import w) = (Ok resp, s).
Proof.
  intros Hi Hd Hs.
  assert (F : flags_after_import w
              = {| EE_AVAILABLE := false; EE_INITIALIZED := false;
                   EE_INIT_ERROR := None |}).
  { unfold flags_after_import, module_init, init_ee_from_env, raise_if,
      try_except, bind, write_flags, ret, raise, lift, fresh.
    rewrite Hi, Hd. cbn. rewrite Hs. reflexivity. }
  split; [ exact F | ].
  intros svc environ req. rewrite F. split; reflexivity.
Qed.

(** X12.  A credentials file takes precedence over an inline key: with
    [EE_CREDENTIALS_FILE] set, the import does the same whatever
    [EE_PRIVATE_KEY_JSON] holds and whatever writing a temporary key
    file would do; the inline key is not used and no file is written. *)
Theorem credentials_file_takes_precedence w w' :
  env_truthy (getenv w "EE_CREDENTIALS_FILE") = true ->
  import_ee w' = import_ee w ->
  Initialize_default w' = Initialize_default w ->
  Initialize_service_account w' = Initialize_service_account w ->
  (forall k, k <> "EE_PRIVATE_KEY_JSON" -> getenv w' k = getenv w k) ->
  module_init w' fresh = module_init w fresh.
Proof.
  intros Hp Hi Hd Hs Henv.
  assert (Ea : getenv w' "EE_SERVICE_ACCOUNT" = getenv w "EE_SERVICE_ACCOUNT")
    by (apply Henv; discriminate).
  assert (Ep : getenv w' "EE_CREDENTIALS_FILE" = getenv w "EE_CREDENTIALS_FILE")
    by (apply Henv; discriminate).
  unfold module_init, init_ee_from_env.
  rewrite Hi, Hd, Hs, Ea, Ep, Hp.
  rewrite !andb_false_r. reflexivity.
Qed.

(** ** The page on disk *)

(** X13.  With the module loaded by its absolute path, the import
    leaves a monitor.html that is already next to the module as it is,
    whatever it holds, and /monitor serves that text, not the page of
    this version; only when there is none does the import write the
    page, touching no other file, and /monitor serves it; and when it
    can neither find nor open the file, the import fails with the error
    of [open]. *)
Theorem import_keeps_the_page_it_finds html h d :
  dirname_file h = here h ->
  let page := path_join (here h) "monitor.html" in
  (forall old,
     d page = Some old ->
     ensure_page html h d = (Ok tt, d) /\ monitor h d = Ok old)
  /\ (d page = None -> open_w h page = None ->
      exists d',
        ensure_page html h d = (Ok tt, d')
        /\ monitor h d' = Ok html
        /\ forall q, q <> page -> d' q = d q)
  /\ (forall e,
        d page = None -> open_w h page = Some e ->
        ensure_page html h d = (Raise e, d)).
Proof.
  intros Hdir page. unfold ensure_page, monitor, write_monitor_html, write_text.
  rewrite Hdir. fold page. split; [ | split ].
  - intros old ->. split; reflexivity.
  - intros -> ->. eexists. split; [ reflexivity | ]. split.
    + cbv beta. rewrite String.eqb_refl. reflexivity.
    + intros q Hq. cbv beta. apply String.eqb_neq in Hq. rewrite Hq. reflexivity.
  - intros e -> ->. reflexivity.
Qed.

(** X14.  [write_monitor_html] returns the path it wrote, which is
    [out_path] when one is given and monitor.html next to the module
    otherwise; the file at that path then holds the page and no other
    file has changed.  So /monitor serves the page after a call without
    argument, and serves what it served before after a call that wrote
    elsewhere. *)
Theorem write_monitor_html_writes_one_file html h out_path d :
  let page := path_join (here h) "monitor.html" in
  let target := match out_path with Some p => p | None => page end in
  open_w h target = None ->
  let d' := snd (write_monitor_html html h out_path d) in
  fst (write_monitor_html html h out_path d) = Ok target
  /\ d' target = Some html
  /\ (forall q, q <> target -> d' q = d q)
  /\ (target = page -> monitor h d' = Ok html)
  /\ (target <> page -> monitor h d' = monitor h d).
Proof.
  intros page target Hopen.
  unfold write_monitor_html, write_text. fold page. fold target.
  rewrite Hopen. cbn [fst snd].
  split; [ reflexivity | ]. split; [ rewrite String.eqb_refl; reflexivity | ].
  split.
  - intros q Hq. apply String.eqb_neq in Hq. rewrite Hq. reflexivity.
  - unfold monitor. fold page. split.
    + intros Ht. rewrite Ht, String.eqb_refl. reflexivity.
    + intros Hne. assert (E : String.eqb page target = false).
      { apply String.eqb_neq. congruence. }
      rewrite E. reflexivity.
Qed.

(** ** Witnesses of the further properties *)

(** The body [{geometry, cloud_threshold: 'abc'}]: [int] raises. *)
Lemma only_the_body_and_int_escape_witness :
  run (tiles (py := ascii_py) quiet no_env (post bad_threshold)) initialised
  = (Raise (Exception "ValueError"
              "invalid literal for int() with base 10: 'abc'"),
     {| flags := initialised; calls := [EvGetJson] |})
  /\ escapes (py := ascii_py) "cloud_threshold" 20 "buffer" 500
       (post bad_threshold)
       (Exception "ValueError" "invalid literal for int() with base 10: 'abc'").
Proof.
  split; [ reflexivity | ].
  exact (proj2 (proj1 (only_the_body_and_int_escape (py := ascii_py) quiet no_env
                         initialised (post bad_threshold)
                         (Exception "ValueError"
                            "invalid literal for int() with base 10: 'abc'")
                         {| flags := initialised; calls := [EvGetJson] |})
                  eq_refl)).
Defined.

(** The January request to /tiles is answered with a tile URL. *)
Lemma every_answer_is_an_envelope_witness :
  fst (run (tiles (py := ascii_py) quiet no_env (post january)) initialised)
  = Ok (jsonify [("status", JStr "ok"); ("tile_url", JStr EmptyString)] 200)
  /\ tiles_answer
       (jsonify [("status", JStr "ok"); ("tile_url", JStr EmptyString)] 200).
Proof.
  assert (Hrun : run (tiles (py := ascii_py) quiet no_env (post january))
                   initialised
                 = (Ok (jsonify [("status", JStr "ok");
                                 ("tile_url", JStr EmptyString)] 200),
                    snd (run (tiles (py := ascii_py) quiet no_env (post january))
                           initialised)))
    by (vm_compute; reflexivity).
  split; [ rewrite Hrun; reflexivity | ].
  exact (proj1 (every_answer_is_an_envelope (py := ascii_py) quiet no_env
                  initialised (post january)
                  (jsonify [("status", JStr "ok");
                            ("tile_url", JStr EmptyString)] 200)
                  (snd (run (tiles (py := ascii_py) quiet no_env (post january))
                          initialised)))
           Hrun).
Defined.


(** With no environment the default collection is opened. *)
Lemma the_collection_is_the_environment_s_or_the_default_witness :
  In (EvBuild (ee.ImageCollection "COPERNICUS/S2_SR_HARMONIZED"))
     (calls (snd (run (timeseries (py := ascii_py) quiet no_env (post january))
                    initialised)))
  /\ "COPERNICUS/S2_SR_HARMONIZED"
     = match no_env "EE_S2_COLLECTION" with
       | Some s => s
       | None => "COPERNICUS/S2_SR_HARMONIZED"
       end.
Proof.
  assert (Hin : In (EvBuild (ee.ImageCollection "COPERNICUS/S2_SR_HARMONIZED"))
                  (calls (snd (run (timeseries (py := ascii_py) quiet no_env
                                      (post january)) initialised))))
    by (vm_compute; do 2 right; left; reflexivity).
  split; [ exact Hin | ].
  exact (the_collection_is_the_environment_s_or_the_default (py := ascii_py)
           quiet no_env initialised (post january)
           "COPERNICUS/S2_SR_HARMONIZED" (or_intror Hin)).
Defined.


(** The layer [5] has no [upper]: the 500 carries that message. *)
Lemma every_500_names_its_cause_witness :
  status_code (error_response "'int' object has no attribute 'upper'" 500) = 500
  /\ tiles_500_cause (py := ascii_py) quiet initialised (post numeric_layer)
       (calls (snd (run (tiles (py := ascii_py) quiet no_env
                           (post numeric_layer)) initialised)))
       (error_response "'int' object has no attribute 'upper'" 500).
Proof.
  assert (Hrun : run (tiles (py := ascii_py) quiet no_env (post numeric_layer))
                   initialised
                 = (Ok (error_response "'int' object has no attribute 'upper'" 500),
                    snd (run (tiles (py := ascii_py) quiet no_env
                                (post numeric_layer)) initialised)))
    by (vm_compute; reflexivity).
  split; [ reflexivity | ].
  exact (proj1 (every_500_names_its_cause (py := ascii_py) quiet no_env
                  initialised (post numeric_layer)
                  (error_response "'int' object has no attribute 'upper'" 500)
                  (snd (run (tiles (py := ascii_py) quiet no_env
                               (post numeric_layer)) initialised))
                  eq_refl) Hrun).
Defined.

(** The January series over the simulated scenes. *)
Lemma series_pairs_by_position_witness :
  (run (timeseries (py := ascii_py) (Sim.service clear_scenes) no_env
          (post january)) initialised
   = (Ok (ok_series clear_series),
      snd (run (timeseries (py := ascii_py) (Sim.service clear_scenes) no_env
                  (post january)) initialised))
   /\ body (ok_series clear_series)
      = JObj [("status", JStr "ok"); ("series", JArr clear_series)])
  /\ exists ds vs : list json,
       List.length clear_series = Nat.min (List.length ds) (List.length vs).
Proof.
  assert (Hrun : run (timeseries (py := ascii_py) (Sim.service clear_scenes)
                        no_env (post january)) initialised
                 = (Ok (ok_series clear_series),
                    snd (run (timeseries (py := ascii_py)
                                (Sim.service clear_scenes) no_env
                                (post january)) initialised)))
    by (vm_compute; reflexivity).
  split; [ split; [ exact Hrun | reflexivity ] | ].
  destruct (series_pairs_by_position (py := ascii_py)
              (Sim.service clear_scenes) no_env initialised (post january)
              (ok_series clear_series)
              (snd (run (timeseries (py := ascii_py) (Sim.service clear_scenes)
                           no_env (post january)) initialised))
              clear_series Hrun eq_refl)
    as (c & dates & values & ds & vs & _ & _ & _ & _ & Hlen & _).
  exists ds, vs. exact Hlen.
Defined.

(** The second of two requests. *)
Lemma each_request_is_answered_as_if_alone_witness :
  nth_error two_requests 1 = Some (POST_timeseries, post january)
  /\ nth_error
       (fst (serve (py := ascii_py) (Sim.service clear_scenes) no_env
               two_requests {| flags := initialised; calls := [] |})) 1
     = Some (fst (run (handle (py := ascii_py) (Sim.service clear_scenes) no_env
                         POST_timeseries (post january)) initialised)).
Proof.
  split; [ reflexivity | ].
  exact (each_request_is_answered_as_if_alone (py := ascii_py)
           (Sim.service clear_scenes) no_env two_requests
           {| flags := initialised; calls := [] |} 1 POST_timeseries
           (post january) eq_refl).
Defined.

(** Default credentials refused, no service account. *)
Lemma default_failure_alone_is_reported_as_None_witness :
  (import_ee refused_default = None
   /\ Initialize_default refused_default
      = Some (Exception "EEException" "Please authorize access")
   /\ env_truthy (getenv refused_default "EE_SERVICE_ACCOUNT") = false)
  /\ flags_after_import refused_default
     = {| EE_AVAILABLE := false; EE_INITIALIZED := false; EE_INIT_ERROR := None |}.
Proof.
  split; [ repeat split | ].
  exact (proj1 (default_failure_alone_is_reported_as_None (py := ascii_py)
                  refused_default
                  (Exception "EEException" "Please authorize access")
                  eq_refl eq_refl eq_refl)).
Defined.

(** With a key file, the inline key and the temporary file do not matter. *)
Lemma credentials_file_takes_precedence_witness :
  env_truthy (getenv with_both_keys "EE_CREDENTIALS_FILE") = true
  /\ module_init with_key_file fresh = module_init with_both_keys fresh.
Proof.
  split; [ reflexivity | ].
  apply (credentials_file_takes_precedence with_both_keys with_key_file);
    try reflexivity.
  intros k Hk. apply String.eqb_neq in Hk. cbn [getenv with_key_file].
  rewrite Hk. reflexivity.
Defined.

(** An old page next to the module stays, and is what /monitor serves. *)
Lemma import_keeps_the_page_it_finds_witness :
  (dirname_file app_host = here app_host
   /\ stale_disk (path_join (here app_host) "monitor.html") = Some "<p>old</p>")
  /\ ensure_page "<p>new</p>" app_host stale_disk = (Ok tt, stale_disk)
  /\ monitor app_host stale_disk = Ok "<p>old</p>".
Proof.
  split; [ split; reflexivity | ].
  exact (proj1 (import_keeps_the_page_it_finds "<p>new</p>" app_host stale_disk
                  eq_refl) "<p>old</p>" eq_refl).
Defined.

(** Writing the page over the old one. *)
Lemma write_monitor_html_writes_one_file_witness :
  open_w app_host (path_join (here app_host) "monitor.html") = None
  /\ monitor app_host
       (snd (write_monitor_html "<p>new</p>" app_host None stale_disk))
     = Ok "<p>new</p>".
Proof.
  split; [ reflexivity | ].
  destruct (write_monitor_html_writes_one_file "<p>new</p>" app_host None
              stale_disk eq_refl) as (_ & _ & _ & Hpage & _).
  exact (Hpage eq_refl).
Defined.

(** * What reaches the service *)





Section Sent.
Context {py : PyStr}.
Variable svc : EarthEngine.
Variable environ : string -> option string.





End Sent.

Section Forwarded.
Context {py : PyStr}.
Variable svc : EarthEngine.
Variable environ : string -> option string.




End Forwarded.

(** ** Witnesses of what reaches the service *)


